(** * Simple Stock Visualizer: the dashboard script of [visualization/main.py]

    The script loads price CSV files into one pandas table, lets the user
    pick a symbol and renders metrics, a chart, a preview and an export of
    the rows of that symbol.  This development embeds the script as a
    program in a small state-and-exception monad over an object store (the
    pandas tables the script's variables point to) and an output trace (the
    Streamlit elements and the file-system calls of one render pass), and
    proves the properties of the specification on it.  The text that
    [to_csv] writes for the export and what [pd.read_csv] reads from a text
    are modelled after the documentation of pandas and of Python's csv
    module. *)

From Stdlib Require Import String Ascii ZArith Lia Bool Arith List.
From Stdlib Require Import Permutation Sorted DecimalString.
From Stdlib Require Import Floats.SpecFloat.
Import ListNotations.

Open Scope string_scope.
Open Scope list_scope.

(** ** Data model *)

(** A cell of an additional column, with the dtypes [pd.read_csv] infers. *)
Inductive cell : Type :=
| CText (s : string)
| CInt (z : Z)
| CFloat (f : spec_float)
| CBool (b : bool)
| CMissing.

(** One row.  The three columns the script reads are typed as the data model
    types them: [symbol] is text, or missing ([None], pandas' NaN) where the
    file has an empty cell; [close] is a float64 (NaN included); [datetime]
    is text-or-missing as [pd.read_csv] returns it ([D := option string]) and
    a timestamp in nanoseconds since the epoch, or NaT ([None]), once
    [pd.to_datetime] has coerced the column ([D := option Z]).  The other
    columns travel with the row as named cells.  (A file without one of
    the three columns makes the script raise [KeyError] at its first use,
    and a symbol column whose cells are all digits is read as integers;
    such files are not in this model of the rows.  What line 97 makes of a
    column of integers is [int_symbols] below.) *)
Record record (D : Type) : Type := mkRecord {
  symbol : option string;
  datetime : D;
  close : spec_float;
  extra : list (string * cell)
}.
Arguments mkRecord {D} _ _ _ _.
Arguments symbol {D} _.
Arguments datetime {D} _.
Arguments close {D} _.
Arguments extra {D} _.

Definition raw_record : Type := record (option string).
Definition Record_ : Type := record (option Z).

(** A table: the rows in order, each with its index label. *)
Definition frame (D : Type) : Type := list (nat * record D).
Definition DataFrame : Type := frame (option Z).

Definition index {D} (df : frame D) : list nat := map fst df.
Definition rows {D} (df : frame D) : list (record D) := map snd df.
Definition column {D A} (f : record D -> A) (df : frame D) : list A :=
  map (fun r => f (snd r)) df.

(** ** The pandas operations the script calls *)

(** [pd.concat(dfs, ignore_index=True)]: the rows of all tables in order,
    relabelled 0, 1, 2, ...  (Where the files differ in their additional
    columns, pandas gives every row the union of the columns, with the
    missing value where its file had none; here each row keeps the cells it
    was read with, and a cell it does not have is read as missing, see
    [lookup_cell].) *)
Definition concat {D} (dfs : list (list (record D))) : frame D :=
  let rs := List.concat dfs in combine (seq 0 (length rs)) rs.

(** [pd.to_datetime] on one cell: a missing cell becomes NaT, text is handed
    to the timestamp parser [strptime], whose failure is the exception
    [pd.to_datetime] raises. *)
Definition coerce_cell (strptime : string -> option Z) (c : option string)
  : option (option Z) :=
  match c with
  | None => Some None
  | Some s => match strptime s with Some t => Some (Some t) | None => None end
  end.

(** [data['datetime'] = pd.to_datetime(data['datetime'])]: [None] when the
    coercion raises. *)
Fixpoint to_datetime (strptime : string -> option Z) (df : frame (option string))
  : option DataFrame :=
  match df with
  | [] => Some []
  | (i, r) :: df' =>
      match coerce_cell strptime (datetime r), to_datetime strptime df' with
      | Some t, Some out =>
          Some ((i, mkRecord (symbol r) t (close r) (extra r)) :: out)
      | _, _ => None
      end
  end.

(** Equality of two symbol cells as [==] computes it: NaN equals nothing. *)
Definition sym_eqb (a b : option string) : bool :=
  match a, b with
  | Some x, Some y => String.eqb x y
  | _, _ => false
  end.

(** Identity of two symbol cells as [Series.unique] sees it: all NaN are one
    value. *)
Definition sym_same (a b : option string) : bool :=
  match a, b with
  | Some x, Some y => String.eqb x y
  | None, None => true
  | _, _ => false
  end.

(** [Series.unique()]: the distinct values in order of first appearance. *)
Fixpoint unique_from (seen l : list (option string)) : list (option string) :=
  match l with
  | [] => []
  | x :: l' =>
      if existsb (sym_same x) seen then unique_from seen l'
      else x :: unique_from (x :: seen) l'
  end.
Definition unique (l : list (option string)) : list (option string) :=
  unique_from [] l.

Definition notna {A} (c : option A) : bool :=
  match c with Some _ => true | None => false end.

(** [Series.nunique()]: the distinct values, NaN dropped. *)
Definition nunique (l : list (option string)) : nat :=
  length (filter notna (unique l)).

(** [data['symbol'] == s]: the boolean mask. *)
Definition eq_mask (df : DataFrame) (s : option string) : list bool :=
  map (fun r => sym_eqb (symbol (snd r)) s) df.

(** [data[mask]]: the rows whose mask entry is [True], labels kept. *)
Fixpoint getitem_mask {D} (df : frame D) (mask : list bool) : frame D :=
  match df, mask with
  | r :: df', b :: mask' =>
      if b then r :: getitem_mask df' mask' else getitem_mask df' mask'
  | _, _ => []
  end.

(** The order [sort_values] sorts a timestamp column by: ascending, NaT
    last ([na_position='last']). *)
Definition dt_leb (a b : option Z) : bool :=
  match a, b with
  | Some x, Some y => (x <=? y)%Z
  | _, None => true
  | None, Some _ => false
  end.

Fixpoint insert_by_datetime (r : nat * Record_) (l : DataFrame) : DataFrame :=
  match l with
  | [] => [r]
  | r' :: l' =>
      if dt_leb (datetime (snd r)) (datetime (snd r')) then r :: r' :: l'
      else r' :: insert_by_datetime r l'
  end.

(** [df.sort_values('datetime')]: a new table with the same rows and labels,
    by ascending timestamp, rows without a timestamp last.  pandas sorts with
    numpy's quicksort, which leaves the order of equal keys unspecified; the
    model keeps them in table order (what numpy does on short columns). *)
Definition sort_values (df : DataFrame) : DataFrame :=
  fold_right insert_by_datetime [] df.

(** [df.tail(n)]: the last [n] rows, all of them when there are fewer. *)
Definition tail {D} (n : nat) (df : frame D) : frame D :=
  skipn (length df - n) df.

(** [series.iloc[-1]] *)
Definition iloc_last {A} (l : list A) : option A :=
  match rev l with x :: _ => Some x | [] => None end.

(** [df.to_csv(index=False)]: the document pandas writes is the table without
    its index labels, one line per row in table order.  The text of a line is
    pandas' own; the model keeps the document as these rows. *)
Definition to_csv (df : DataFrame) : list Record_ := rows df.

(** The two lines of the script that derive the Filtered View from the
    Dataset and the selection: [data[data['symbol'] == s].copy()] then
    [.sort_values('datetime')].  As values the mask indexing, the copy and
    the sort compose to this function; the script below runs them on the
    object store. *)
Definition filtered_data (data : DataFrame) (s : option string) : DataFrame :=
  sort_values (getitem_mask data (eq_mask data s)).

(** The timestamp order as a relation. *)
Definition dt_le (a b : option Z) : Prop := dt_leb a b = true.

(** ** Formatting *)

Definition string_of_nat (n : nat) : string :=
  NilEmpty.string_of_uint (Nat.to_uint n).

Definition string_of_Z (z : Z) : string :=
  NilZero.string_of_int (Z.to_int z).

(** [n / d] rounded to the nearest integer, ties to even ([d > 0]). *)
Definition round_half_even (n d : Z) : Z :=
  let q := (n / d)%Z in
  match (2 * (n mod d) ?= d)%Z with
  | Lt => q
  | Gt => (q + 1)%Z
  | Eq => if Z.even q then q else (q + 1)%Z
  end.

(** The magnitude [m * 2^e] of a finite float in hundredths, correctly
    rounded, as Python's float formatting rounds. *)
Definition hundredths (m : positive) (e : Z) : Z :=
  if (0 <=? e)%Z then (100 * Z.pos m * 2 ^ e)%Z
  else round_half_even (100 * Z.pos m) (2 ^ (- e)).

Definition two_digits (n : Z) : string :=
  if (n <? 10)%Z then "0" ++ string_of_Z n else string_of_Z n.

Definition sign_str (s : bool) : string := if s then "-" else "".

(** The format spec [.2f] of an f-string on a float. *)
Definition format_2f (x : spec_float) : string :=
  match x with
  | S754_nan => "nan"
  | S754_infinity s => sign_str s ++ "inf"
  | S754_zero s => sign_str s ++ "0.00"
  | S754_finite s m e =>
      let h := hundredths m e in
      sign_str s ++ string_of_Z (h / 100) ++ "." ++ two_digits (h mod 100)
  end.

Definition ns_per_day : Z := 86400000000000.

(** Year, month and day of a day number counted from 1970-01-01 (proleptic
    Gregorian calendar). *)
Definition civil_from_days (z0 : Z) : Z * Z * Z :=
  let z := (z0 + 719468)%Z in
  let era := (z / 146097)%Z in
  let doe := (z - era * 146097)%Z in
  let yoe := ((doe - doe / 1460 + doe / 36524 - doe / 146096) / 365)%Z in
  let doy := (doe - (365 * yoe + yoe / 4 - yoe / 100))%Z in
  let mp := ((5 * doy + 2) / 153)%Z in
  let d := (doy - (153 * mp + 2) / 5 + 1)%Z in
  let m := (if mp <? 10 then mp + 3 else mp - 9)%Z in
  let y := (yoe + era * 400 + (if m <=? 2 then 1 else 0))%Z in
  (y, m, d).

Definition four_digits (n : Z) : string :=
  (if (n <? 1000)%Z then "0" else "") ++ (if (n <? 100)%Z then "0" else "")
  ++ two_digits n.

(** [str(ts.date())]; the date of NaT prints as [NaT]. *)
Definition date_str (t : option Z) : string :=
  match t with
  | None => "NaT"
  | Some ns =>
      let '(y, m, d) := civil_from_days (ns / ns_per_day) in
      four_digits y ++ "-" ++ two_digits m ++ "-" ++ two_digits d
  end.

(** [Series.min()] and [Series.max()] of a timestamp column: NaT is skipped,
    and is the answer when there is nothing else. *)
Definition dt_reduce (f : Z -> Z -> Z) (l : list (option Z)) : option Z :=
  fold_right (fun c acc =>
                match c, acc with
                | Some x, Some y => Some (f x y)
                | Some x, None => Some x
                | None, _ => acc
                end) None l.
Definition dt_min : list (option Z) -> option Z := dt_reduce Z.min.
Definition dt_max : list (option Z) -> option Z := dt_reduce Z.max.

(** [os.path.join(a, b)] for a relative [b] (POSIX). *)
Definition ends_with_slash (a : string) : bool :=
  match rev (list_ascii_of_string a) with
  | c :: _ => Ascii.eqb c "/"%char
  | [] => false
  end.
Definition os_path_join (a b : string) : string :=
  if String.eqb a "" then b
  else if ends_with_slash a then a ++ b
  else a ++ "/" ++ b.

Fixpoint insert_str (x : string) (l : list string) : list string :=
  match l with
  | [] => [x]
  | y :: l' => if String.leb x y then x :: y :: l' else y :: insert_str x l'
  end.
Definition sort_str (l : list string) : list string :=
  fold_right insert_str [] l.

Fixpoint present {A} (l : list (option A)) : list A :=
  match l with
  | [] => []
  | Some x :: l' => x :: present l'
  | None :: l' => present l'
  end.

(** The exceptions a pass can end on: Python's, and [StoreError] for a
    location that does not hold the table the script expects there. *)
Inductive exn : Type :=
| TypeError
| ValueError
| IndexError
| StoreError.

(** Python's [sorted] on the distinct cells of a text column.  Strings sort
    by code point.  A NaN is a float: comparing it with a string raises
    [TypeError], and a list of NaN only is left as it is (every comparison
    is [False]).  (For a column of integers see [sorted_int].) *)
Definition sorted (l : list (option string)) : exn + list (option string) :=
  if forallb notna l then inr (map Some (sort_str (present l)))
  else if existsb notna l then
    inl TypeError
  else inr l.

(** ** One render pass: inputs, outputs, store *)

(** What [pd.read_csv] makes of one file: the text of the exception it
    raises, or the parsed rows (under a fresh 0..n-1 index). *)
Definition read_result : Type := string + list raw_record.

(** An uploaded file: its name and what [pd.read_csv] makes of it. *)
Record UploadedFile : Type := mkUpload {
  name : string;
  content : read_result
}.

(** Everything a render pass reads: the state of the widgets and the file
    system behind [os.path.exists], [glob.glob] and [pd.read_csv], and the
    timestamp parser behind [pd.to_datetime]. *)
Record world : Type := mkWorld {
  radio_index : nat;
  uploaded : list UploadedFile;
  folder_text : string;
  selectbox_index : nat;
  exists_on_disk : string -> bool;
  glob_on_disk : string -> list string;
  csv_on_disk : string -> read_result;
  strptime : string -> option Z
}.

Definition loc : Type := nat.

Record figure : Type := mkFigure {
  figsize : nat * nat;
  plot_x : list (option Z);
  plot_y : list spec_float;
  linewidth : nat;
  title : string;
  xlabel : string;
  ylabel : string;
  xticks_rotation : nat
}.

Inductive metric_value : Type :=
| MInt (n : nat)
| MStr (s : string).

(** What a pass does that can be observed: the Streamlit elements in the
    order they are emitted, and the calls that touch the file system. *)
Inductive event : Type :=
| st_title_ev (s : string)
| st_radio_ev (label : string) (options : list string)
| st_file_uploader_ev (label : string)
| st_text_input_ev (label : string)
| st_info_ev (s : string)
| st_warning_ev (s : string)
| st_error_ev (s : string)
| st_success_ev (s : string)
| st_selectbox_ev (label : string) (options : list (option string))
| st_columns_ev (n : nat)
| st_metric_ev (label : string) (value : metric_value)
| st_pyplot_ev (fig : figure)
| st_subheader_ev (s : string)
| st_dataframe_ev (df : DataFrame)
| st_download_button_ev (label : string) (data : list Record_)
                        (file_name : string) (mime : string)
| os_path_exists_ev (path : string)
| glob_ev (pattern : string)
| read_csv_ev (file : string).

(** A table object: as [pd.read_csv] and [pd.concat] return it, with the
    datetime column still text, or with the column coerced to timestamps. *)
Inductive object : Type :=
| RawTable (df : frame (option string))
| Table (df : DataFrame).

(** The objects of the pass: the tables, by location, and the trace. *)
Record state : Type := mkState {
  heap : list object;
  out : list event
}.

(** The coerced table at a location. *)
Definition table_at (h : list object) (l : loc) : option DataFrame :=
  match nth_error h l with
  | Some (Table df) => Some df
  | _ => None
  end.

Definition raw_table_at (h : list object) (l : loc)
  : option (frame (option string)) :=
  match nth_error h l with
  | Some (RawTable df) => Some df
  | _ => None
  end.

Fixpoint update {A} (l : list A) (i : nat) (x : A) : list A :=
  match l, i with
  | [], _ => []
  | _ :: l', 0 => x :: l'
  | y :: l', S i' => y :: update l' i' x
  end.

Definition M (A : Type) : Type := world -> state -> (exn + A) * state.

Definition ret {A} (a : A) : M A := fun _ s => (inr a, s).
Definition bind {A B} (m : M A) (k : A -> M B) : M B :=
  fun w s =>
    match m w s with
    | (inr a, s') => k a w s'
    | (inl e, s') => (inl e, s')
    end.
Definition raise {A} (e : exn) : M A := fun _ s => (inl e, s).
Definition ask : M world := fun w s => (inr w, s).
Definition emit (e : event) : M unit :=
  fun _ s => (inr tt, mkState (heap s) (out s ++ [e])).

Declare Scope script_scope.
Delimit Scope script_scope with script.
Notation "x <- m ;; k" := (bind m (fun x => k))
  (at level 61, m at next level, right associativity) : script_scope.
Notation "m ;; k" := (bind m (fun _ => k))
  (at level 61, right associativity) : script_scope.
Open Scope script_scope.

(** A pandas operation that returns a new table puts it in the store; one
    that works in place overwrites the object it is applied to.  Reading a
    location that does not hold the expected kind of table is an error of
    the model ([StoreError]); the script never does it. *)
Definition alloc (o : object) : M loc :=
  fun _ s => (inr (length (heap s)), mkState (heap s ++ [o]) (out s)).
Definition overwrite (l : loc) (o : object) : M unit :=
  fun _ s => (inr tt, mkState (update (heap s) l o) (out s)).
Definition deref (l : loc) : M DataFrame :=
  fun _ s =>
    match table_at (heap s) l with
    | Some df => (inr df, s)
    | None => (inl StoreError, s)
    end.
Definition deref_raw (l : loc) : M (frame (option string)) :=
  fun _ s =>
    match raw_table_at (heap s) l with
    | Some df => (inr df, s)
    | None => (inl StoreError, s)
    end.

(** *** Streamlit *)

Definition st_title (s : string) : M unit := emit (st_title_ev s).
Definition st_info (s : string) : M unit := emit (st_info_ev s).
Definition st_warning (s : string) : M unit := emit (st_warning_ev s).
Definition st_error (s : string) : M unit := emit (st_error_ev s).
Definition st_success (s : string) : M unit := emit (st_success_ev s).
Definition st_subheader (s : string) : M unit := emit (st_subheader_ev s).
Definition st_columns (n : nat) : M unit := emit (st_columns_ev n).
Definition st_metric (label : string) (v : metric_value) : M unit :=
  emit (st_metric_ev label v).
Definition st_pyplot (fig : figure) : M unit := emit (st_pyplot_ev fig).

(** [st.radio] returns the chosen option, the first one by default. *)
Definition st_radio (label : string) (options : list string) : M string :=
  emit (st_radio_ev label options) ;;
  w <- ask ;;
  ret (nth (radio_index w) options (hd "" options)).

Definition st_file_uploader (label : string) : M (list UploadedFile) :=
  emit (st_file_uploader_ev label) ;;
  w <- ask ;;
  ret (uploaded w).

Definition st_text_input (label : string) : M string :=
  emit (st_text_input_ev label) ;;
  w <- ask ;;
  ret (folder_text w).

(** [st.selectbox] returns the chosen option, the first one by default. *)
Definition st_selectbox (label : string) (options : list (option string))
  : M (option string) :=
  emit (st_selectbox_ev label options) ;;
  w <- ask ;;
  ret (nth (selectbox_index w) options (hd None options)).

Definition st_dataframe (l : loc) : M unit :=
  df <- deref l ;;
  emit (st_dataframe_ev df).

Definition st_download_button (label : string) (data : list Record_)
           (file_name mime : string) : M unit :=
  emit (st_download_button_ev label data file_name mime).

(** *** File system *)

Definition os_path_exists (p : string) : M bool :=
  emit (os_path_exists_ev p) ;;
  w <- ask ;;
  ret (exists_on_disk w p).

Definition glob_glob (pattern : string) : M (list string) :=
  emit (glob_ev pattern) ;;
  w <- ask ;;
  ret (glob_on_disk w pattern).

Definition pd_read_csv_path (file : string) : M read_result :=
  emit (read_csv_ev file) ;;
  w <- ask ;;
  ret (csv_on_disk w file).

Definition pd_read_csv_upload (file : UploadedFile) : M read_result :=
  emit (read_csv_ev (name file)) ;;
  ret (content file).

(** *** pandas on the store *)

(** [pd.concat(dfs, ignore_index=True)]: a new table.  (The tables
    [pd.read_csv] returned are held by the list [dfs] alone and are kept as
    values.) *)
Definition pd_concat (dfs : list (list raw_record)) : M loc :=
  alloc (RawTable (concat dfs)).

(** [data['datetime'] = pd.to_datetime(data['datetime'])]: the column of
    the table at [l] is replaced in place. *)
Definition df_setitem_to_datetime (l : loc) : M unit :=
  w <- ask ;;
  df <- deref_raw l ;;
  match to_datetime (strptime w) df with
  | Some data => overwrite l (Table data)
  | None => raise ValueError
  end.

Definition df_len (l : loc) : M nat :=
  df <- deref l ;; ret (length df).

Definition df_symbol_unique (l : loc) : M (list (option string)) :=
  df <- deref l ;; ret (unique (column symbol df)).

Definition df_symbol_nunique (l : loc) : M nat :=
  df <- deref l ;; ret (nunique (column symbol df)).

Definition df_symbol_eq (l : loc) (s : option string) : M (list bool) :=
  df <- deref l ;; ret (eq_mask df s).

Definition df_getitem_mask (l : loc) (mask : list bool) : M loc :=
  df <- deref l ;; alloc (Table (getitem_mask df mask)).

Definition df_copy (l : loc) : M loc :=
  df <- deref l ;; alloc (Table df).

Definition df_sort_values (l : loc) : M loc :=
  df <- deref l ;; alloc (Table (sort_values df)).

Definition df_tail (n : nat) (l : loc) : M loc :=
  df <- deref l ;; alloc (Table (tail n df)).

Definition df_to_csv (l : loc) : M (list Record_) :=
  df <- deref l ;; ret (to_csv df).

Definition py_sorted (l : list (option string)) : M (list (option string)) :=
  match sorted l with
  | inr l' => ret l'
  | inl e => raise e
  end.

(** [str(x)] of a symbol cell in an f-string. *)
Definition str_symbol (s : option string) : string :=
  match s with Some x => x | None => "nan" end.

(** ** The script *)

(** The loop of [load_data_from_folder]: a file that [pd.read_csv] rejects
    is reported as a warning and skipped. *)
Fixpoint read_folder_files (files : list string) (dfs : list (list raw_record))
  : M (list (list raw_record)) :=
  match files with
  | [] => ret dfs
  | file :: files' =>
      r <- pd_read_csv_path file ;;
      match r with
      | inr df => read_folder_files files' (dfs ++ [df])
      | inl e =>
          st_warning ("Could not load " ++ file ++ ": " ++ e) ;;
          read_folder_files files' dfs
      end
  end.

(** The body of [load_data_from_folder].  [st.cache_data] memoises it by
    folder path across passes: a later pass is handed the table this body
    built on the pass that first saw the path, and does not list or read
    the folder again.  [main] is the script on a pass on which the body
    runs; [cached_load_data_from_folder] and [main_cached] below are the
    decorated function and the script on the cache of earlier passes. *)
Definition load_data_from_folder (folder_path : string) : M (option loc) :=
  let pattern := os_path_join folder_path "*.csv" in
  files <- glob_glob pattern ;;
  match files with
  | [] => ret None
  | _ :: _ =>
      dfs <- read_folder_files files [] ;;
      match dfs with
      | [] => ret None
      | _ :: _ =>
          data <- pd_concat dfs ;;
          df_setitem_to_datetime data ;;
          ret (Some data)
      end
  end.

(** The loop of [load_uploaded_data]: a file that [pd.read_csv] rejects is
    reported as an error and skipped. *)
Fixpoint read_uploaded_files (files : list UploadedFile)
         (dfs : list (list raw_record)) : M (list (list raw_record)) :=
  match files with
  | [] => ret dfs
  | file :: files' =>
      r <- pd_read_csv_upload file ;;
      match r with
      | inr df => read_uploaded_files files' (dfs ++ [df])
      | inl e =>
          st_error ("Could not load " ++ name file ++ ": " ++ e) ;;
          read_uploaded_files files' dfs
      end
  end.

Definition load_uploaded_data (uploaded_files : list UploadedFile)
  : M (option loc) :=
  match uploaded_files with
  | [] => ret None
  | _ :: _ =>
      dfs <- read_uploaded_files uploaded_files [] ;;
      match dfs with
      | [] => ret None
      | _ :: _ =>
          data <- pd_concat dfs ;;
          df_setitem_to_datetime data ;;
          ret (Some data)
      end
  end.

(** Lines 109 to 144: what is shown for a non-empty selection. *)
Definition show_symbol (selected_symbol : option string) (filtered_data : loc)
  : M unit :=
  fd <- deref filtered_data ;;
  st_columns 3 ;;
  st_metric "Records" (MInt (length fd)) ;;
  st_metric "Date Range"
    (MStr (date_str (dt_min (column datetime fd)) ++ " to "
           ++ date_str (dt_max (column datetime fd)))) ;;
  match iloc_last (column close fd) with
  | Some c => st_metric "Latest Close" (MStr ("$" ++ format_2f c))
  | None => raise IndexError
  end ;;
  st_pyplot (mkFigure (12, 6) (column datetime fd) (column close fd) 2
               (str_symbol selected_symbol ++ " - Close Price Over Time")
               "Date" "Price ($)" 45) ;;
  st_subheader "Recent Data" ;;
  recent <- df_tail 10 filtered_data ;;
  st_dataframe recent ;;
  csv <- df_to_csv filtered_data ;;
  st_download_button "Download filtered data as CSV" csv
    (str_symbol selected_symbol ++ "_data.csv") "text/csv".

(** Lines 103 and 104: the Filtered View of the selected symbol.  The mask
    indexing, the copy and the sort each return a new table. *)
Definition select_symbol (data : loc) (selected_symbol : option string)
  : M loc :=
  mask <- df_symbol_eq data selected_symbol ;;
  selection <- df_getitem_mask data mask ;;
  filtered_data <- df_copy selection ;;
  df_sort_values filtered_data.

(** Lines 102 to 144: what the script does with the selected symbol. *)
Definition show_selection (data : loc) (selected_symbol : option string)
  : M unit :=
  filtered_data <- select_symbol data selected_symbol ;;
  m <- df_len filtered_data ;;
  if Nat.eqb m 0 then st_warning "No data found for selected symbol"
  else show_symbol selected_symbol filtered_data.

(** Lines 90 to 144: the part of the script that runs when data was
    loaded. *)
Definition show_data (data : loc) : M unit :=
  n <- df_len data ;;
  if Nat.eqb n 0 then st_error "No data found in the loaded files"
  else
    k <- df_symbol_nunique data ;;
    st_success ("✅ Loaded " ++ string_of_nat n ++ " records from "
                ++ string_of_nat k ++ " symbols") ;;
    u <- df_symbol_unique data ;;
    symbols <- py_sorted u ;;
    selected_symbol <- st_selectbox "Select Stock Symbol:" symbols ;;
    show_selection data selected_symbol.

(** Lines 59 to 70: upload mode. *)
Definition upload_mode : M (option loc) :=
  uploaded_files <- st_file_uploader "Upload your CSV files" ;;
  match uploaded_files with
  | _ :: _ => load_uploaded_data uploaded_files
  | [] =>
      st_info "👆 Please upload your CSV files to get started" ;;
      ret None
  end.

(** Lines 72 to 87: folder mode. *)
Definition folder_mode : M (option loc) :=
  folder_path <-
    st_text_input "Enter the folder path containing your CSV files:" ;;
  if negb (String.eqb folder_path "") then
    found <- os_path_exists folder_path ;;
    if found then
      data <- load_data_from_folder folder_path ;;
      match data with
      | None =>
          st_error ("No CSV files found in: " ++ folder_path) ;;
          ret None
      | Some _ => ret data
      end
    else
      st_error ("Folder does not exist: " ++ folder_path) ;;
      ret None
  else
    st_info "👆 Please enter a folder path to get started" ;;
    ret None.

(** The whole script, top to bottom: one render pass. *)
Definition main : M unit :=
  st_title "Simple Stock Visualizer" ;;
  data_source <-
    st_radio "Choose how to load your data:"
             ["Upload CSV files"; "Load from folder"] ;;
  data <- (if String.eqb data_source "Upload CSV files" then upload_mode
           else folder_mode) ;;
  match data with
  | Some d => show_data d
  | None => ret tt
  end.

(** A pass starts on an empty store and an empty page. *)
Definition initial : state := mkState [] [].
Definition run_pass (w : world) : (exn + unit) * state := main w initial.

(** ** A concrete world: the scenario of two files *)

Definition digit_of (c : ascii) : option Z :=
  let n := nat_of_ascii c in
  if (48 <=? n)%nat && (n <=? 57)%nat then Some (Z.of_nat (n - 48)) else None.

Fixpoint number_of (cs : list ascii) (acc : Z) : option Z :=
  match cs with
  | [] => Some acc
  | c :: cs' =>
      match digit_of c with
      | Some d => number_of cs' (10 * acc + d)%Z
      | None => None
      end
  end.

Definition days_from_civil (y0 m d : Z) : Z :=
  let y := (if m <=? 2 then y0 - 1 else y0)%Z in
  let era := (y / 400)%Z in
  let yoe := (y - era * 400)%Z in
  let doy := ((153 * (if 2 <? m then m - 3 else m + 9) + 2) / 5 + d - 1)%Z in
  let doe := (yoe * 365 + yoe / 4 - yoe / 100 + doy)%Z in
  (era * 146097 + doe - 719468)%Z.

(** A timestamp parser for the examples: ISO dates [YYYY-MM-DD], midnight. *)
Definition iso_date (s : string) : option Z :=
  match list_ascii_of_string s with
  | [y1; y2; y3; y4; "-"%char; m1; m2; "-"%char; d1; d2] =>
      match number_of [y1; y2; y3; y4] 0, number_of [m1; m2] 0,
            number_of [d1; d2] 0 with
      | Some y, Some m, Some d =>
          if ((1 <=? m) && (m <=? 12) && (1 <=? d) && (d <=? 31))%Z
          then Some (days_from_civil y m d * ns_per_day)%Z
          else None
      | _, _, _ => None
      end
  | _ => None
  end.

Definition price (cents : positive) : spec_float :=
  S754_finite false cents 0.

Definition A_csv : list raw_record :=
  [ mkRecord (Some "AAPL") (Some "2024-01-03") (price 187) [];
    mkRecord (Some "AAPL") (Some "2024-01-01") (price 185) [];
    mkRecord (Some "AAPL") (Some "2024-01-02") (price 186) [] ].

Definition B_csv : list raw_record :=
  [ mkRecord (Some "MSFT") (Some "2024-01-01") (price 370) [];
    mkRecord (Some "MSFT") (Some "2024-01-02") (price 371) [] ].

Definition two_files_uploaded (choice : nat) : world :=
  mkWorld 0 [mkUpload "A.csv" (inr A_csv); mkUpload "B.csv" (inr B_csv)]
          "" choice (fun _ => false) (fun _ => []) (fun _ => inl "") iso_date.

Definition two_files_in_folder (choice : nat) : world :=
  mkWorld 1 [] "/data" choice
          (fun p => String.eqb p "/data")
          (fun pat => if String.eqb pat "/data/*.csv"
                      then ["/data/A.csv"; "/data/B.csv"] else [])
          (fun f => if String.eqb f "/data/A.csv" then inr A_csv
                    else if String.eqb f "/data/B.csv" then inr B_csv
                    else inl "No such file or directory")
          iso_date.

(** ** Vocabulary of the properties *)

(** Row [a] is not later than row [b]. *)
Definition by_datetime (a b : nat * Record_) : Prop :=
  dt_le (datetime (snd a)) (datetime (snd b)).

(** [s'] has every object of [s], at the same location, unchanged. *)
Definition extends (s s' : state) : Prop :=
  exists l, heap s' = heap s ++ l.

(** A computation that never overwrites or drops an object. *)
Definition grows {A} (m : M A) : Prop :=
  forall w s, extends s (snd (m w s)).

(** The elements lines 109 to 144 put on the page for the Filtered View
    [fd] whose last close is [c]. *)
Definition symbol_page (sel : option string) (fd : DataFrame)
           (c : spec_float) : list event :=
  [ st_columns_ev 3;
    st_metric_ev "Records" (MInt (length fd));
    st_metric_ev "Date Range"
      (MStr (date_str (dt_min (column datetime fd)) ++ " to "
             ++ date_str (dt_max (column datetime fd))));
    st_metric_ev "Latest Close" (MStr ("$" ++ format_2f c));
    st_pyplot_ev (mkFigure (12, 6) (column datetime fd) (column close fd) 2
                    (str_symbol sel ++ " - Close Price Over Time")
                    "Date" "Price ($)" 45);
    st_subheader_ev "Recent Data";
    st_dataframe_ev (tail 10 fd);
    st_download_button_ev "Download filtered data as CSV" (to_csv fd)
      (str_symbol sel ++ "_data.csv") "text/csv" ].

Definition loaded_message (df : DataFrame) : string :=
  "✅ Loaded " ++ string_of_nat (length df) ++ " records from "
  ++ string_of_nat (nunique (column symbol df)) ++ " symbols".

(** ** Sources, and the trace of a loader *)

(** Where a pass takes its files from. *)
Inductive source : Type :=
| Upload (files : list UploadedFile)
| Folder (folder_path : string).

Definition load (src : source) : M (option loc) :=
  match src with
  | Upload files => load_uploaded_data files
  | Folder folder_path => load_data_from_folder folder_path
  end.

(** The files of a source, in the order the loader reads them. *)
Definition file_names (w : world) (src : source) : list string :=
  match src with
  | Upload files => map name files
  | Folder folder_path => glob_on_disk w (os_path_join folder_path "*.csv")
  end.

(** What [pd.read_csv] makes of each of them. *)
Definition inputs (w : world) (src : source) : list read_result :=
  match src with
  | Upload files => map content files
  | Folder folder_path =>
      map (csv_on_disk w) (glob_on_disk w (os_path_join folder_path "*.csv"))
  end.

(** The tables of the files that parse. *)
Definition parsed (rs : list read_result) : list (list raw_record) :=
  flat_map (fun r => match r with inr df => [df] | inl _ => [] end) rs.

Definition could_not_load (file e : string) : string :=
  "Could not load " ++ file ++ ": " ++ e.

(** What reading one file leaves on the trace: the call, and the report
    when the file is rejected. *)
Definition read_events (report : string -> event) (file : string)
           (r : read_result) : list event :=
  read_csv_ev file ::
  match r with
  | inr _ => []
  | inl e => [report (could_not_load file e)]
  end.

(** A rejected upload is an error, a rejected file of the folder a
    warning. *)
Definition report_of (src : source) : string -> event :=
  match src with
  | Upload _ => st_error_ev
  | Folder _ => st_warning_ev
  end.

Definition reading_files (report : string -> event) (files : list string)
           (rs : list read_result) : list event :=
  List.concat (map (fun fr => read_events report (fst fr) (snd fr))
                   (combine files rs)).

(** The trace of a loader. *)
Definition reading (w : world) (src : source) : list event :=
  match src with
  | Upload _ => []
  | Folder folder_path => [glob_ev (os_path_join folder_path "*.csv")]
  end
  ++ reading_files (report_of src) (file_names w src) (inputs w src).

(** The end of both loaders, from [if not dfs] on. *)
Definition assemble (dfs : list (list raw_record)) : M (option loc) :=
  match dfs with
  | [] => ret None
  | _ :: _ =>
      data <- pd_concat dfs ;;
      df_setitem_to_datetime data ;;
      ret (Some data)
  end.

(** ** The trace around the loader *)

Definition the_title : event := st_title_ev "Simple Stock Visualizer".
Definition the_radio : event :=
  st_radio_ev "Choose how to load your data:"
              ["Upload CSV files"; "Load from folder"].
Definition the_uploader : event := st_file_uploader_ev "Upload your CSV files".
Definition the_text_input : event :=
  st_text_input_ev "Enter the folder path containing your CSV files:".

(** The pass loads from [src]: the radio is on upload mode and files were
    uploaded, or it is on folder mode and the text field holds a path that
    exists. *)
Inductive reads (w : world) : source -> Prop :=
| reads_upload :
    radio_index w = 0 -> uploaded w <> [] -> reads w (Upload (uploaded w))
| reads_folder :
    radio_index w = 1 -> folder_text w <> "" ->
    exists_on_disk w (folder_text w) = true ->
    reads w (Folder (folder_text w)).

(** The trace up to the call of the loader. *)
Definition prelude (src : source) : list event :=
  [the_title; the_radio] ++
  match src with
  | Upload _ => [the_uploader]
  | Folder folder_path => [the_text_input; os_path_exists_ev folder_path]
  end.

(** What the script says when the loader returns [None]: line 83 in folder
    mode, nothing in upload mode. *)
Definition no_data_report (src : source) : list event :=
  match src with
  | Upload _ => []
  | Folder folder_path =>
      [st_error_ev ("No CSV files found in: " ++ folder_path)]
  end.

(** ** Reading a trace *)

(** The tables a trace shows with [st.dataframe], and the values it shows
    under a metric label. *)
Definition dataframes (l : list event) : list DataFrame :=
  flat_map (fun e => match e with st_dataframe_ev df => [df] | _ => [] end) l.

Definition metrics (label : string) (l : list event) : list metric_value :=
  flat_map (fun e => match e with
                     | st_metric_ev lb v => if String.eqb lb label then [v] else []
                     | _ => []
                     end) l.

Definition is_digit (c : ascii) : bool :=
  ((48 <=? nat_of_ascii c) && (nat_of_ascii c <=? 57))%nat.

Definition is_finite (x : spec_float) : bool :=
  match x with
  | S754_finite _ _ _ | S754_zero _ => true
  | _ => false
  end.

(** The order of Python on strings: by character, then by length. *)
Definition str_le (a b : string) : Prop := String.leb a b = true.

(** The option lists a trace gives to [st.selectbox]. *)
Definition selectboxes (l : list event) : list (list (option string)) :=
  flat_map (fun e => match e with st_selectbox_ev _ o => [o] | _ => [] end) l.

(** The calls of a trace that scan a folder or read a file. *)
Definition scans (l : list event) : list event :=
  filter (fun e => match e with
                   | glob_ev _ | read_csv_ev _ => true
                   | _ => false
                   end) l.

Definition the_guard_warning : event :=
  st_warning_ev "No data found for selected symbol".

Definition the_no_data_error : event :=
  st_error_ev "No data found in the loaded files".

(** ** More worlds *)

Definition jan_1_2024 : Z := 1704067200000000000.


(** One uploaded file whose only row has an empty symbol cell. *)
Definition blank_symbol_data : DataFrame :=
  [(0, mkRecord None (Some jan_1_2024) (price 185) [])].

Definition blank_symbol_world : world :=
  mkWorld 0
    [mkUpload "prices.csv"
       (inr [mkRecord None (Some "2024-01-01") (price 185) []])]
    "" 0 (fun _ => false) (fun _ => []) (fun _ => inl "") iso_date.

(** One uploaded file that [pd.read_csv] rejects. *)
Definition unreadable_upload_world : world :=
  mkWorld 0 [mkUpload "bad.csv" (inl "No columns to parse from file")]
    "" 0 (fun _ => false) (fun _ => []) (fun _ => inl "") iso_date.

(** A folder whose only CSV file [pd.read_csv] rejects. *)
Definition unreadable_folder_world : world :=
  mkWorld 1 [] "/data" 0
    (fun p => String.eqb p "/data")
    (fun pat => if String.eqb pat "/data/*.csv" then ["/data/bad.csv"] else [])
    (fun _ => inl "No columns to parse from file") iso_date.

(** Folder mode, a path typed that is not on the disk. *)
Definition missing_folder_world : world :=
  mkWorld 1 [] "/nowhere" 0 (fun _ => false) (fun _ => []) (fun _ => inl "")
          iso_date.

(** A row without its datetime cell, the part [pd.to_datetime] does not
    touch. *)
Definition undated {D} (r : record D) : option string * spec_float
                                        * list (string * cell) :=
  (symbol r, close r, extra r).

(** The Dataset of the scenario of two files, A.csv then B.csv. *)
Definition scenario_data : DataFrame :=
  Eval vm_compute in
    match to_datetime iso_date (concat [A_csv; B_csv]) with
    | Some data => data
    | None => []
    end.

(** The store once the scenario is loaded, on an empty page. *)
Definition scenario_state : state := mkState [Table scenario_data] [].

(** The latest AAPL row of the scenario. *)
Definition latest_aapl : nat * Record_ :=
  (0, mkRecord (Some "AAPL") (Some 1704240000000000000%Z) (price 187) []).

(** ** Every pass: where it loads from, what it reads *)

(** The option [st.radio] returns. *)
Definition data_source (w : world) : string :=
  nth (radio_index w) ["Upload CSV files"; "Load from folder"]
      (hd "" ["Upload CSV files"; "Load from folder"]).

Definition upload_chosen (w : world) : bool :=
  String.eqb (data_source w) "Upload CSV files".

(** The source the script hands to a loader, if it gets that far: the
    uploaded files when there are some, the folder when the text field holds
    a path that exists. *)
Definition source_of (w : world) : option source :=
  if upload_chosen w then
    match uploaded w with
    | [] => None
    | _ :: _ => Some (Upload (uploaded w))
    end
  else if String.eqb (folder_text w) "" then None
  else if exists_on_disk w (folder_text w) then Some (Folder (folder_text w))
  else None.

(** The calls of a trace that go to the file system or read a file. *)
Definition is_io (e : event) : bool :=
  match e with
  | os_path_exists_ev _ | glob_ev _ | read_csv_ev _ => true
  | _ => false
  end.
Definition io_calls (l : list event) : list event := filter is_io l.

(** The calls a pass makes, by the state of its widgets. *)
Definition expected_io (w : world) : list event :=
  if upload_chosen w then map read_csv_ev (map name (uploaded w))
  else if String.eqb (folder_text w) "" then []
  else os_path_exists_ev (folder_text w) ::
       if exists_on_disk w (folder_text w) then
         glob_ev (os_path_join (folder_text w) "*.csv") ::
         map read_csv_ev (glob_on_disk w (os_path_join (folder_text w) "*.csv"))
       else [].

(** A symbol column that holds both names and missing cells. *)
Definition mixes (col : list (option string)) : bool :=
  negb (forallb notna col) && existsb notna col.

(** The figures and the downloads of a trace. *)
Definition figures (l : list event) : list figure :=
  flat_map (fun e => match e with st_pyplot_ev f => [f] | _ => [] end) l.

Definition downloads (l : list event) : list (list Record_ * string) :=
  flat_map (fun e => match e with
                     | st_download_button_ev _ d f _ => [(d, f)]
                     | _ => []
                     end) l.

(** The success line for [n] records of [k] symbols. *)
Definition loaded_line (n k : nat) : event :=
  st_success_ev ("✅ Loaded " ++ string_of_nat n ++ " records from "
                 ++ string_of_nat k ++ " symbols").

(** A folder with a file that parses and a file that does not. *)
Definition one_bad_file_world : world :=
  mkWorld 1 [] "/data" 0
    (fun p => String.eqb p "/data")
    (fun pat => if String.eqb pat "/data/*.csv"
                then ["/data/A.csv"; "/data/bad.csv"] else [])
    (fun f => if String.eqb f "/data/A.csv" then inr A_csv
              else inl "No columns to parse from file")
    iso_date.

(** An upload with a header and no rows. *)
Definition no_rows_world : world :=
  mkWorld 0 [mkUpload "empty.csv" (inr [])]
    "" 0 (fun _ => false) (fun _ => []) (fun _ => inl "") iso_date.

(** An upload whose datetime cell is not a date. *)
Definition bad_date_world : world :=
  mkWorld 0
    [mkUpload "prices.csv"
       (inr [mkRecord (Some "AAPL") (Some "yesterday") (price 185) []])]
    "" 0 (fun _ => false) (fun _ => []) (fun _ => inl "") iso_date.

(** Upload mode, nothing uploaded. *)
Definition nothing_uploaded_world : world :=
  mkWorld 0 [] "" 0 (fun _ => false) (fun _ => []) (fun _ => inl "") iso_date.

(** The row of the upload whose datetime cell is not a date. *)
Definition bad_date_row : raw_record :=
  mkRecord (Some "AAPL") (Some "yesterday") (price 185) [].

(** The earliest AAPL row of the scenario. *)
Definition first_aapl : nat * Record_ :=
  (1, mkRecord (Some "AAPL") (Some jan_1_2024) (price 185) []).

(** A Dataset with a row without datetime. *)
Definition undated_data : DataFrame :=
  [(0, mkRecord (Some "AAPL") None (price 190) []);
   (1, mkRecord (Some "AAPL") (Some jan_1_2024) (price 185) [])].

(** ** [st.cache_data] *)

(** What [st.cache_data] keeps of a call of [load_data_from_folder] that
    returned: the value, and the warnings the body showed, which are shown
    again on a hit.  (A call that raised is not kept.) *)
Record cached_call : Type := mkCached {
  cached_value : option DataFrame;
  cached_warnings : list string
}.

(** The calls kept from earlier passes, by folder path. *)
Definition cache : Type := string -> option cached_call.

Definition nothing_cached : cache := fun _ => None.

Fixpoint replay (warnings : list string) : M unit :=
  match warnings with
  | [] => ret tt
  | m :: warnings' => st_warning m ;; replay warnings'
  end.

(** [load_data_from_folder] as line 9 decorates it: on a hit the body does
    not run, its warnings are shown again and the caller gets a copy of the
    cached value. *)
Definition cached_load_data_from_folder (c : cache) (folder_path : string)
  : M (option loc) :=
  match c folder_path with
  | None => load_data_from_folder folder_path
  | Some call =>
      replay (cached_warnings call) ;;
      match cached_value call with
      | Some df => data <- alloc (Table df) ;; ret (Some data)
      | None => ret None
      end
  end.

(** Lines 72 to 87, on the cache of earlier passes. *)
Definition folder_mode_cached (c : cache) : M (option loc) :=
  folder_path <-
    st_text_input "Enter the folder path containing your CSV files:" ;;
  if negb (String.eqb folder_path "") then
    found <- os_path_exists folder_path ;;
    if found then
      data <- cached_load_data_from_folder c folder_path ;;
      match data with
      | None =>
          st_error ("No CSV files found in: " ++ folder_path) ;;
          ret None
      | Some _ => ret data
      end
    else
      st_error ("Folder does not exist: " ++ folder_path) ;;
      ret None
  else
    st_info "👆 Please enter a folder path to get started" ;;
    ret None.

(** The whole script on the cache of earlier passes: a pass of a running
    application.  On an empty cache it is [main]. *)
Definition main_cached (c : cache) : M unit :=
  st_title "Simple Stock Visualizer" ;;
  data_source <-
    st_radio "Choose how to load your data:"
             ["Upload CSV files"; "Load from folder"] ;;
  data <- (if String.eqb data_source "Upload CSV files" then upload_mode
           else folder_mode_cached c) ;;
  match data with
  | Some d => show_data d
  | None => ret tt
  end.

Definition run_pass_cached (c : cache) (w : world) : (exn + unit) * state :=
  main_cached c w initial.

(** The calls a pass of a running application makes, by the state of its
    widgets and of the cache. *)
Definition expected_io_cached (c : cache) (w : world) : list event :=
  if upload_chosen w then map read_csv_ev (map name (uploaded w))
  else if String.eqb (folder_text w) "" then []
  else os_path_exists_ev (folder_text w) ::
       if exists_on_disk w (folder_text w) then
         match c (folder_text w) with
         | Some _ => []
         | None =>
             glob_ev (os_path_join (folder_text w) "*.csv") ::
             map read_csv_ev
                 (glob_on_disk w (os_path_join (folder_text w) "*.csv"))
         end
       else [].

(** The scenario of two files as a folder that an earlier pass loaded. *)
Definition scenario_cache : cache :=
  fun p => if String.eqb p "/data"
           then Some (mkCached (Some scenario_data) []) else None.

(** ** A symbol column of integers *)

(** A file whose symbol cells are all digits gets an int64 symbol column
    from [pd.read_csv]; the rows above hold text.  Line 97 on a column of
    integers: [Series.unique()] keeps the first appearances and [sorted]
    orders integers by value. *)
Fixpoint unique_int_from (seen l : list Z) : list Z :=
  match l with
  | [] => []
  | x :: l' =>
      if existsb (Z.eqb x) seen then unique_int_from seen l'
      else x :: unique_int_from (x :: seen) l'
  end.
Definition unique_int (l : list Z) : list Z := unique_int_from [] l.

Fixpoint insert_int (x : Z) (l : list Z) : list Z :=
  match l with
  | [] => [x]
  | y :: l' => if (x <=? y)%Z then x :: y :: l' else y :: insert_int x l'
  end.
Definition sorted_int (l : list Z) : list Z := fold_right insert_int [] l.

(** [sorted(data['symbol'].unique())] on an int64 column. *)
Definition int_symbols (col : list Z) : list Z := sorted_int (unique_int col).

(** ** The text of the export, and reading it back *)

(** The cells of a table as pandas has them: text, the integers, floats and
    booleans [pd.read_csv] infers, timestamps, and the missing value (NaN,
    NaT). *)
Inductive value : Type :=
| VText (s : string)
| VInt (z : Z)
| VFloat (f : spec_float)
| VBool (b : bool)
| VTime (t : Z)
| VMissing.

(** A table without its index: the column names and the rows of cells. *)
Record table : Type := mkTable {
  header : list string;
  body : list (list value)
}.

Definition is_nan (f : spec_float) : bool :=
  match f with S754_nan => true | _ => false end.

Definition float_value (f : spec_float) : value :=
  if is_nan f then VMissing else VFloat f.

Definition symbol_value (s : option string) : value :=
  match s with Some x => VText x | None => VMissing end.

Definition time_value (t : option Z) : value :=
  match t with Some x => VTime x | None => VMissing end.

Definition cell_value (c : cell) : value :=
  match c with
  | CText s => VText s
  | CInt z => VInt z
  | CFloat f => float_value f
  | CBool b => VBool b
  | CMissing => VMissing
  end.

(** The cell of a row under an additional column; a row that does not have
    the column holds the missing value there. *)
Fixpoint lookup_cell (n : string) (l : list (string * cell)) : cell :=
  match l with
  | [] => CMissing
  | (k, c) :: l' => if String.eqb k n then c else lookup_cell n l'
  end.

Fixpoint first_seen (seen l : list string) : list string :=
  match l with
  | [] => []
  | x :: l' =>
      if existsb (String.eqb x) seen then first_seen seen l'
      else x :: first_seen (x :: seen) l'
  end.

Definition required_columns : list string := ["symbol"; "datetime"; "close"].

(** The additional columns of the rows, in order of first appearance. *)
Definition extra_columns (doc : list Record_) : list string :=
  first_seen required_columns (flat_map (fun r => map fst (extra r)) doc).

Definition extra_values (names : list string) (r : Record_) : list value :=
  map (fun n => cell_value (lookup_cell n (extra r))) names.

(** The rows of a document as a table; [time] says how a cell of the
    datetime column is held. *)
Definition table_as (time : option Z -> value) (doc : list Record_) : table :=
  mkTable (required_columns ++ extra_columns doc)
          (map (fun r => symbol_value (symbol r) :: time (datetime r)
                         :: float_value (close r)
                         :: extra_values (extra_columns doc) r) doc).

(** The table of a document, timestamps in the datetime column. *)
Definition table_of (doc : list Record_) : table := table_as time_value doc.

(** How pandas prints and parses the cells that are not text: [str] of a
    float and the text of a timestamp on the way out, the integer and the
    float parser of [pd.read_csv] on the way in. *)
Record number_format : Type := mkFormat {
  to_int64 : string -> option Z;
  to_float64 : string -> option spec_float;
  float_repr : spec_float -> string;
  time_str : Z -> string
}.

(** The fields [pd.read_csv] takes for a missing value (its default
    [na_values]). *)
Definition na_values (f : string) : bool :=
  existsb (String.eqb f)
    [""; "#N/A"; "#N/A N/A"; "#NA"; "-1.#IND"; "-1.#QNAN"; "-NaN"; "-nan";
     "1.#IND"; "1.#QNAN"; "<NA>"; "N/A"; "NA"; "NULL"; "NaN"; "None";
     "n/a"; "nan"; "null"].

(** The fields [pd.read_csv] takes for a boolean. *)
Definition to_bool (f : string) : option bool :=
  if existsb (String.eqb f) ["True"; "TRUE"; "true"] then Some true
  else if existsb (String.eqb f) ["False"; "FALSE"; "false"] then Some false
  else None.

(** What [to_csv] writes for a cell: the text itself, [str] of a number or
    a boolean, the text of a timestamp, nothing for a missing value
    ([na_rep='']). *)
Definition str_value (p : number_format) (v : value) : string :=
  match v with
  | VText s => s
  | VInt z => string_of_Z z
  | VFloat f => if is_nan f then "" else float_repr p f
  | VBool b => if b then "True" else "False"
  | VTime t => time_str p t
  | VMissing => ""
  end.

(** The records [to_csv(index=False)] writes: the column names, then one
    record per row. *)
Definition csv_records (p : number_format) (t : table) : list (list string) :=
  header t :: map (map (str_value p)) (body t).

(** *** The csv writer *)

Definition comma : ascii := ","%char.
Definition dquote : ascii := Eval compute in ascii_of_nat 34.
Definition lf : ascii := Eval compute in ascii_of_nat 10.
Definition cr : ascii := Eval compute in ascii_of_nat 13.
Definition tab : ascii := Eval compute in ascii_of_nat 9.

Fixpoint any_char (f : ascii -> bool) (s : string) : bool :=
  match s with
  | EmptyString => false
  | String c s' => f c || any_char f s'
  end.

(** [QUOTE_MINIMAL]: a field is quoted when it holds the delimiter, the
    quote character or a character of the line terminator. *)
Definition is_special (c : ascii) : bool :=
  Ascii.eqb c comma || Ascii.eqb c dquote || Ascii.eqb c lf.

Fixpoint escape_quotes (s : string) : string :=
  match s with
  | EmptyString => EmptyString
  | String c s' =>
      if Ascii.eqb c dquote then String dquote (String dquote (escape_quotes s'))
      else String c (escape_quotes s')
  end.

Definition quoted (s : string) : string :=
  String dquote (escape_quotes s ++ String dquote EmptyString)%string.

(** One field of a record; [alone] when the record has no other field (an
    empty field that is alone is quoted). *)
Definition write_field (alone : bool) (s : string) : string :=
  if any_char is_special s || (alone && String.eqb s EmptyString)
  then quoted s else s.

Fixpoint join_fields (fs : list string) : string :=
  match fs with
  | [] => EmptyString
  | [f] => f
  | f :: fs' => (f ++ String comma (join_fields fs'))%string
  end.

Definition write_row (fs : list string) : string :=
  (join_fields (map (write_field (Nat.eqb (length fs) 1)) fs)
   ++ String lf EmptyString)%string.

Definition write_rows (rs : list (list string)) : string :=
  fold_right (fun r t => (write_row r ++ t)%string) EmptyString rs.


(** *** The tokenizer of [pd.read_csv] *)

Inductive parser_state : Type :=
| START_RECORD
| WHITESPACE_LINE
| START_FIELD
| IN_FIELD
| IN_QUOTED_FIELD
| QUOTE_IN_QUOTED_FIELD
| EAT_CRNL.

(** The field being read, the fields of the line being read, the lines
    read. *)
Record tokens : Type := mkTokens {
  field : string;
  line : list string;
  lines : list (list string)
}.

Definition push_char (c : ascii) (t : tokens) : tokens :=
  mkTokens (field t ++ String c EmptyString)%string (line t) (lines t).
Definition end_field (t : tokens) : tokens :=
  mkTokens EmptyString (line t ++ [field t]) (lines t).
Definition end_line (t : tokens) : tokens :=
  mkTokens EmptyString [] (lines t ++ [line t]).

Definition drop_field (t : tokens) : tokens :=
  mkTokens EmptyString (line t) (lines t).

Definition is_blank (c : ascii) : bool :=
  Ascii.eqb c " "%char || Ascii.eqb c tab.

Definition start_field (c : ascii) (t : tokens) : parser_state * tokens :=
  if Ascii.eqb c lf then (START_RECORD, end_line (end_field t))
  else if Ascii.eqb c cr then (EAT_CRNL, end_field t)
  else if Ascii.eqb c dquote then (IN_QUOTED_FIELD, t)
  else if Ascii.eqb c comma then (START_FIELD, end_field t)
  else (IN_FIELD, push_char c t).

(** At the start of a record an empty line is skipped
    ([skip_blank_lines=True]), and so is a line of blanks only: the
    tokenizer reads on through the blanks to see whether anything
    follows. *)
Definition start_record (c : ascii) (t : tokens) : parser_state * tokens :=
  if Ascii.eqb c lf then (START_RECORD, t)
  else if Ascii.eqb c cr then (START_RECORD, t)
  else if is_blank c then (WHITESPACE_LINE, push_char c t)
  else start_field c t.

Definition in_field (c : ascii) (t : tokens) : parser_state * tokens :=
  if Ascii.eqb c lf then (START_RECORD, end_line (end_field t))
  else if Ascii.eqb c cr then (EAT_CRNL, end_field t)
  else if Ascii.eqb c comma then (START_FIELD, end_field t)
  else (IN_FIELD, push_char c t).

Definition step (st : parser_state) (c : ascii) (t : tokens)
  : parser_state * tokens :=
  match st with
  | START_RECORD => start_record c t
  | WHITESPACE_LINE =>
      if Ascii.eqb c lf then (START_RECORD, drop_field t)
      else if Ascii.eqb c cr then (START_RECORD, drop_field t)
      else if is_blank c then (WHITESPACE_LINE, push_char c t)
      else in_field c t
  | START_FIELD => start_field c t
  | IN_FIELD => in_field c t
  | IN_QUOTED_FIELD =>
      if Ascii.eqb c dquote then (QUOTE_IN_QUOTED_FIELD, t)
      else (IN_QUOTED_FIELD, push_char c t)
  | QUOTE_IN_QUOTED_FIELD =>
      if Ascii.eqb c dquote then (IN_QUOTED_FIELD, push_char c t)
      else if Ascii.eqb c comma then (START_FIELD, end_field t)
      else if Ascii.eqb c lf then (START_RECORD, end_line (end_field t))
      else if Ascii.eqb c cr then (EAT_CRNL, end_field t)
      else (IN_FIELD, push_char c t)
  | EAT_CRNL =>
      if Ascii.eqb c lf then (START_RECORD, end_line t)
      else start_record c (end_line t)
  end.

Fixpoint run (st : parser_state) (t : tokens) (text : string)
  : parser_state * tokens :=
  match text with
  | EmptyString => (st, t)
  | String c text' => let (st', t') := step st c t in run st' t' text'
  end.

(** The end of the text: the line being read is closed; a quoted field
    that is still open is an error. *)
Definition at_eof (r : parser_state * tokens) : option (list (list string)) :=
  match fst r with
  | START_RECORD | WHITESPACE_LINE => Some (lines (snd r))
  | IN_QUOTED_FIELD => None
  | EAT_CRNL => Some (lines (end_line (snd r)))
  | START_FIELD | IN_FIELD | QUOTE_IN_QUOTED_FIELD =>
      Some (lines (end_line (end_field (snd r))))
  end.

Definition tokenize (text : string) : option (list (list string)) :=
  at_eof (run START_RECORD (mkTokens EmptyString [] []) text).

(** *** The dtypes [pd.read_csv] infers *)

Inductive dtype : Type :=
| Int64
| Float64
| Bool
| Object.

Definition is_some {A} (o : option A) : bool :=
  match o with Some _ => true | None => false end.

(** The dtype the parser finds for a column: it tries int64, float64 and
    bool in this order on the fields that are not missing values, and
    falls back on object (text). *)
Definition infer (p : number_format) (col : list string) : dtype :=
  let given := filter (fun f => negb (na_values f)) col in
  if forallb (fun f => is_some (to_int64 p f)) given then Int64
  else if forallb (fun f => is_some (to_float64 p f)) given then Float64
  else if forallb (fun f => is_some (to_bool f)) given then Bool
  else Object.

(** An int64 as a float64, rounded to nearest. *)
Definition float_of_int (z : Z) : spec_float :=
  binary_normalize 53 1024 z 0 false.

(** A cell of a column of dtype [d]; [na] when the column has missing
    values: integers are then upcast to float64 (and booleans are held in
    an object column). *)
Definition convert (p : number_format) (d : dtype) (na : bool) (f : string)
  : value :=
  if na_values f then VMissing
  else
    match d with
    | Int64 =>
        match to_int64 p f with
        | Some z => if na then float_value (float_of_int z) else VInt z
        | None => VMissing
        end
    | Float64 =>
        match to_float64 p f with Some x => float_value x | None => VMissing end
    | Bool =>
        match to_bool f with Some b => VBool b | None => VMissing end
    | Object => VText f
    end.

(** The cell read from field [f] of a column with the fields [col]. *)
Definition read_cell (p : number_format) (col : list string) (f : string)
  : value :=
  convert p (infer p col) (existsb na_values col) f.

Definition nth_column {A} (d : A) (j : nat) (rs : list (list A)) : list A :=
  map (fun r => nth j r d) rs.

(** A line with fewer fields than the header is filled with missing
    values. *)
Definition fill (n : nat) (l : list string) : list string :=
  l ++ repeat EmptyString (n - length l).

(** [pd.read_csv] on a text: the first record names the columns, every
    column gets the dtype inferred from its fields.  [None] when the text
    has no record, when a quoted field is left open, or when a line has
    more fields than the header (which [pd.read_csv] rejects or reads as
    index columns). *)
Definition read_csv (p : number_format) (text : string) : option table :=
  match tokenize text with
  | Some (names :: ls) =>
      if forallb (fun l => length l <=? length names)%nat ls then
        let fields := map (fill (length names)) ls in
        Some (mkTable names
                (map (fun l =>
                        map (fun jf => read_cell p
                                         (nth_column EmptyString (fst jf)
                                                     fields)
                                         (snd jf))
                            (combine (seq 0 (length l)) l))
                     fields))
      else None
  | _ => None
  end.







(** *** Cells that are read back as they were written *)





(** A column whose cells, written and re-read under the dtype inferred
    for the column, are the cells it had. *)
Definition column_reads_back (p : number_format) (col : list value) : Prop :=
  map (read_cell p (map (str_value p) col)) (map (str_value p) col) = col.






(** A cell of a column of integers, and of a column of booleans. *)
Definition int_cell (p : number_format) (v : value) : Prop :=
  exists z, v = VInt z /\ na_values (string_of_Z z) = false
            /\ to_int64 p (string_of_Z z) = Some z.

Definition bool_cell (v : value) : Prop := exists b, v = VBool b.

(** The words [True] and [False] are no numbers. *)
Definition bools_are_words (p : number_format) : Prop :=
  forall b : bool,
    to_int64 p (if b then "True" else "False") = None
    /\ to_float64 p (if b then "True" else "False") = None.

(** *** A format for the examples *)

Definition unsigned (s : string) : bool * string :=
  match s with
  | String "-" s' => (true, s')
  | _ => (false, s)
  end.

Definition digits_of (cs : list ascii) : option Z :=
  match cs with
  | [] => None
  | _ :: _ => number_of cs 0
  end.

(** Integers in decimal digits. *)
Definition decimal_int (s : string) : option Z :=
  let (neg, d) := unsigned s in
  option_map (fun n => if neg then (- n)%Z else n)
             (digits_of (list_ascii_of_string d)).

Definition whole (neg : bool) (n : option Z) : option spec_float :=
  match n with
  | Some (Zpos m) => Some (S754_finite neg m 0)
  | Some Z0 => Some (S754_zero neg)
  | _ => None
  end.

(** Floats that are whole numbers, as Python prints them ([186.0]) or as
    integers ([186]). *)
Definition whole_float (s : string) : option spec_float :=
  let (neg, d) := unsigned s in
  match rev (list_ascii_of_string d) with
  | "0"%char :: "."%char :: ds => whole neg (digits_of (rev ds))
  | _ => whole neg (digits_of (list_ascii_of_string d))
  end.

Definition whole_repr (f : spec_float) : string :=
  match f with
  | S754_finite s m 0 => sign_str s ++ string_of_Z (Zpos m) ++ ".0"
  | S754_zero s => sign_str s ++ "0.0"
  | S754_infinity s => sign_str s ++ "inf"
  | _ => "nan"
  end.

(** Whole prices and dates at midnight, which pandas prints as
    [YYYY-MM-DD]. *)
Definition example_format : number_format :=
  mkFormat decimal_int whole_float whole_repr (fun t => date_str (Some t)).


Definition jan_2_2024 : Z := 1704153600000000000.


(** A Dataset with two additional columns: a volume, and a note that holds
    a comma where it is given. *)
Definition annotated_data : DataFrame :=
  [(0, mkRecord (Some "AAPL") (Some jan_2_2024) (price 186)
               [("volume", CInt 250); ("note", CMissing)]);
   (1, mkRecord (Some "AAPL") (Some jan_1_2024) (price 185)
               [("volume", CInt 100); ("note", CText "open, then up")]);
   (2, mkRecord (Some "MSFT") (Some jan_1_2024) (price 370)
               [("volume", CInt 75); ("note", CMissing)])].


(** * Proofs *)

(** ** The definitions at work *)

Example format_2f_150_25 :
  format_2f (S754_finite false 601 (-2)) = "150.25".
Proof. reflexivity. Qed.
Example format_2f_tie : format_2f (S754_finite false 1 (-3)) = "0.12".
Proof. reflexivity. Qed.
Example format_2f_tie_up : format_2f (S754_finite false 3 (-3)) = "0.38".
Proof. reflexivity. Qed.
Example format_2f_neg : format_2f (S754_finite true 5 0) = "-5.00".
Proof. reflexivity. Qed.
Example date_str_epoch : date_str (Some 0%Z) = "1970-01-01".
Proof. reflexivity. Qed.
Example date_str_2024 : date_str (Some (19723 * ns_per_day + 5)%Z) = "2024-01-01".
Proof. reflexivity. Qed.
Example date_str_leap : date_str (Some (19782 * ns_per_day)%Z) = "2024-02-29".
Proof. reflexivity. Qed.
Example date_str_before : date_str (Some (-1)%Z) = "1969-12-31".
Proof. reflexivity. Qed.
Example sorted_ex : sorted [Some "MSFT"; Some "AAPL"] = inr [Some "AAPL"; Some "MSFT"].
Proof. reflexivity. Qed.
Example join_ex : os_path_join "/data" "*.csv" = "/data/*.csv".
Proof. reflexivity. Qed.
Example int_symbols_ex : int_symbols [10; 9; 10]%Z = [9; 10]%Z.
Proof. reflexivity. Qed.
Example write_row_ex :
  write_row ["AAPL"; "up, then down"; ""]
  = String.concat ""
      ["AAPL,"; String dquote "up, then down"; String dquote ","; String lf ""].
Proof. reflexivity. Qed.
(** A line of blanks and an empty line are skipped, and a carriage return
    ends a line. *)
Example tokenize_ex :
  tokenize (String.concat ""
              ["a,b"; String lf "   "; String lf ""; String lf " x,y";
               String cr (String lf "z")])
  = Some [["a"; "b"]; [" x"; "y"]; ["z"]].
Proof. reflexivity. Qed.
(** Integers with a gap are read as floats, booleans stay booleans, [NA] is
    a missing value. *)
Example read_csv_ex :
  read_csv example_format
    (write_rows [["n"; "s"; "b"]; ["1"; "x"; "True"]; [""; "NA"; "false"]])
  = Some (mkTable ["n"; "s"; "b"]
                  [[VFloat (float_of_int 1); VText "x"; VBool true];
                   [VMissing; VMissing; VBool false]]).
Proof. vm_compute. reflexivity. Qed.

(** ** Facts about the pandas operations *)

Section Frames.

Lemma getitem_mask_map {D} (f : nat * record D -> bool) (df : frame D) :
  getitem_mask df (map f df) = filter f df.
Proof.
  induction df as [|r df IH]; simpl; [reflexivity|].
  destruct (f r); rewrite IH; reflexivity.
Qed.

(** Indexing by the mask of [== s] keeps the rows whose symbol is [s]. *)
Lemma getitem_eq_mask (df : DataFrame) (s : option string) :
  getitem_mask df (eq_mask df s)
  = filter (fun r => sym_eqb (symbol (snd r)) s) df.
Proof. unfold eq_mask. apply getitem_mask_map. Qed.

Lemma dt_le_trans a b c : dt_le a b -> dt_le b c -> dt_le a c.
Proof.
  unfold dt_le. destruct a, b, c; simpl; try congruence.
  rewrite !Z.leb_le. lia.
Qed.

Lemma dt_leb_total a b : dt_leb a b = false -> dt_leb b a = true.
Proof.
  destruct a, b; simpl; try congruence.
  rewrite Z.leb_gt, Z.leb_le. lia.
Qed.

Lemma by_datetime_trans a b c :
  by_datetime a b -> by_datetime b c -> by_datetime a c.
Proof. unfold by_datetime. apply dt_le_trans. Qed.

Lemma insert_by_datetime_perm r l :
  Permutation (insert_by_datetime r l) (r :: l).
Proof.
  induction l as [|r' l IH]; simpl; [reflexivity|].
  destruct (dt_leb _ _); [reflexivity|].
  rewrite IH. apply perm_swap.
Qed.

Lemma sort_values_perm df : Permutation (sort_values df) df.
Proof.
  induction df as [|r df IH]; simpl; [constructor|].
  rewrite insert_by_datetime_perm. constructor. exact IH.
Qed.

Lemma insert_by_datetime_hd r x l :
  by_datetime x r -> HdRel by_datetime x l ->
  HdRel by_datetime x (insert_by_datetime r l).
Proof.
  intros Hxr Hxl. destruct l as [|r' l]; simpl.
  - constructor. exact Hxr.
  - destruct (dt_leb _ _); constructor; [exact Hxr|].
    inversion Hxl; assumption.
Qed.

Lemma insert_by_datetime_sorted r l :
  Sorted by_datetime l -> Sorted by_datetime (insert_by_datetime r l).
Proof.
  induction 1 as [|r' l Hs IH Hhd]; simpl.
  - repeat constructor.
  - destruct (dt_leb _ _) eqn:E.
    + constructor; [constructor; assumption|].
      constructor. exact E.
    + constructor; [exact IH|].
      apply insert_by_datetime_hd; [|exact Hhd].
      apply dt_leb_total. exact E.
Qed.

Lemma sort_values_sorted df : StronglySorted by_datetime (sort_values df).
Proof.
  apply Sorted_StronglySorted.
  - intros a b c. apply by_datetime_trans.
  - induction df as [|r df IH]; simpl; [constructor|].
    apply insert_by_datetime_sorted. exact IH.
Qed.

Lemma sort_values_length df : length (sort_values df) = length df.
Proof. apply Permutation_length, sort_values_perm. Qed.

Lemma sort_values_nil df : sort_values df = [] -> df = [].
Proof.
  intros H. apply length_zero_iff_nil.
  rewrite <- sort_values_length, H. reflexivity.
Qed.

Lemma filtered_data_perm data s :
  Permutation (filtered_data data s)
              (filter (fun r => sym_eqb (symbol (snd r)) s) data).
Proof.
  unfold filtered_data. rewrite getitem_eq_mask. apply sort_values_perm.
Qed.

Lemma filtered_data_sorted data s :
  StronglySorted by_datetime (filtered_data data s).
Proof. apply sort_values_sorted. Qed.

(** In a table sorted by [sort_values] the last row is a latest one. *)
Lemma sorted_last_is_latest (fv : DataFrame) d :
  StronglySorted by_datetime fv ->
  Forall (fun r => by_datetime r (last fv d)) fv.
Proof.
  induction 1 as [|r fv Hs IH Hall]; [constructor|].
  destruct fv as [|r' fv'].
  - constructor; [|constructor]. simpl.
    unfold by_datetime, dt_le. destruct (datetime (snd r)); simpl; auto.
    apply Z.leb_refl.
  - constructor.
    + rewrite Forall_forall in Hall. apply Hall.
      change (last (r :: r' :: fv') d) with (last (r' :: fv') d).
      clear. generalize r'. induction fv' as [|x l IH]; intros y.
      * left; reflexivity.
      * right. apply IH.
    + exact IH.
Qed.

Lemma tail_length {D} n (df : frame D) :
  length (tail n df) = Nat.min n (length df).
Proof. unfold tail. rewrite length_skipn. lia. Qed.

Lemma tail_suffix {D} n (df : frame D) :
  df = firstn (length df - n) df ++ tail n df.
Proof. unfold tail. symmetry. apply firstn_skipn. Qed.

Lemma iloc_last_last {A} (l : list A) d :
  l <> [] -> iloc_last l = Some (last l d).
Proof.
  intros H. destruct (exists_last H) as [l' [a ->]].
  unfold iloc_last. rewrite rev_unit, last_last. reflexivity.
Qed.

Lemma column_last {A} (f : Record_ -> A) (df : DataFrame) d :
  df <> [] -> last (column f df) (f (snd d)) = f (snd (last df d)).
Proof.
  intros _. unfold column. induction df as [|r df IH]; [reflexivity|].
  destruct df; [reflexivity|]. exact IH.
Qed.

End Frames.

(** ** The store only grows *)

Section Store.

Lemma lookup_new h df : table_at (h ++ [Table df]) (length h) = Some df.
Proof.
  unfold table_at. rewrite nth_error_app2, Nat.sub_diag by lia. reflexivity.
Qed.

Lemma lookup_old h l i df :
  table_at h i = Some df -> table_at (h ++ l) i = Some df.
Proof.
  unfold table_at. intros H.
  destruct (nth_error h i) as [o|] eqn:E; [|discriminate].
  rewrite nth_error_app1, E; [exact H|].
  apply nth_error_Some. congruence.
Qed.

Lemma lookup_new_raw h df :
  raw_table_at (h ++ [RawTable df]) (length h) = Some df.
Proof.
  unfold raw_table_at. rewrite nth_error_app2, Nat.sub_diag by lia.
  reflexivity.
Qed.

Lemma update_last {A} (h : list A) x y :
  update (h ++ [x]) (length h) y = h ++ [y].
Proof. induction h as [|z h IH]; simpl; [reflexivity|]. rewrite IH. reflexivity. Qed.

Lemma extends_refl s : extends s s.
Proof. exists []. symmetry. apply app_nil_r. Qed.

Lemma extends_trans s1 s2 s3 : extends s1 s2 -> extends s2 s3 -> extends s1 s3.
Proof.
  intros [l1 H1] [l2 H2]. exists (l1 ++ l2).
  rewrite H2, H1, app_assoc. reflexivity.
Qed.

Lemma extends_lookup s s' l df :
  extends s s' -> table_at (heap s) l = Some df ->
  table_at (heap s') l = Some df.
Proof. intros [k ->]. apply lookup_old. Qed.

Lemma grows_ret {A} (a : A) : grows (ret a).
Proof. intros w s. apply extends_refl. Qed.

Lemma grows_raise {A} e : grows (@raise A e).
Proof. intros w s. apply extends_refl. Qed.

Lemma grows_ask : grows ask.
Proof. intros w s. apply extends_refl. Qed.

Lemma grows_emit e : grows (emit e).
Proof. intros w s. exists []. simpl. symmetry. apply app_nil_r. Qed.

Lemma grows_alloc o : grows (alloc o).
Proof. intros w s. exists [o]. reflexivity. Qed.

Lemma grows_deref l : grows (deref l).
Proof.
  intros w s. unfold deref. destruct (table_at _ _); apply extends_refl.
Qed.

Lemma grows_bind {A B} (m : M A) (k : A -> M B) :
  grows m -> (forall a, grows (k a)) -> grows (bind m k).
Proof.
  intros Hm Hk w s. unfold bind.
  specialize (Hm w s). destruct (m w s) as [[e|a] s1]; simpl in *.
  - exact Hm.
  - eapply extends_trans; [exact Hm|]. apply Hk.
Qed.

Lemma grows_if {A} (c : bool) (m1 m2 : M A) :
  grows m1 -> grows m2 -> grows (if c then m1 else m2).
Proof. destruct c; auto. Qed.

End Store.

Create HintDb store.
#[export] Hint Resolve grows_ret grows_raise grows_ask grows_emit grows_alloc
  grows_deref grows_if : store.
#[export] Hint Extern 2 (grows (bind _ _)) =>
  apply grows_bind; [|intros ?] : store.
#[export] Hint Extern 3 (grows (match ?x with _ => _ end)) =>
  destruct x : store.

Ltac grows_unfold :=
  unfold st_title, st_info, st_warning, st_error, st_success, st_subheader,
    st_columns, st_metric, st_pyplot, st_radio, st_file_uploader,
    st_text_input, st_selectbox, st_dataframe, st_download_button,
    os_path_exists, glob_glob, pd_read_csv_path, pd_read_csv_upload,
    pd_concat, df_len, df_symbol_unique, df_symbol_nunique,
    df_symbol_eq, df_getitem_mask, df_copy, df_sort_values, df_tail,
    df_to_csv, py_sorted.

Section StoreScript.

Lemma grows_select_symbol data s : grows (select_symbol data s).
Proof. unfold select_symbol. grows_unfold. auto 20 with store. Qed.

Lemma grows_show_symbol sel l : grows (show_symbol sel l).
Proof. unfold show_symbol. grows_unfold. auto 40 with store. Qed.

Lemma grows_show_selection data sel : grows (show_selection data sel).
Proof.
  unfold show_selection. grows_unfold.
  pose proof grows_select_symbol. pose proof grows_show_symbol.
  auto 20 with store.
Qed.

(** The in-place coercion of the loader is not of that kind: it replaces
    the object it is applied to. *)
Lemma setitem_to_datetime_is_in_place : ~ grows (df_setitem_to_datetime 0).
Proof.
  intros G.
  specialize (G (two_files_uploaded 0)
                (mkState [RawTable (concat [A_csv; B_csv])] [])).
  destruct G as [l E]. vm_compute in E. discriminate E.
Qed.

Lemma grows_show_data data : grows (show_data data).
Proof.
  unfold show_data. grows_unfold.
  pose proof grows_show_selection.
  auto 40 with store.
Qed.

End StoreScript.

(** ** Running the script *)

Section Runs.

(** The three tables lines 103 and 104 create, and where the last one
    is. *)
Lemma select_symbol_run w s data df sel :
  table_at (heap s) data = Some df ->
  select_symbol data sel w s
  = (inr (length (heap s) + 2),
     mkState (heap s ++ [Table (getitem_mask df (eq_mask df sel));
                         Table (getitem_mask df (eq_mask df sel));
                         Table (filtered_data df sel)])
             (out s)).
Proof.
  intros H.
  unfold select_symbol, df_symbol_eq, df_getitem_mask, df_copy,
    df_sort_values, bind, ret, deref, alloc.
  repeat (progress (simpl; rewrite ?H, ?lookup_new)). f_equal.
  - f_equal. rewrite !length_app. simpl. lia.
  - f_equal. rewrite <- !app_assoc. reflexivity.
Qed.

Lemma show_symbol_run w s sel l fd c :
  table_at (heap s) l = Some fd ->
  iloc_last (column close fd) = Some c ->
  show_symbol sel l w s
  = (inr tt,
     mkState (heap s ++ [Table (tail 10 fd)]) (out s ++ symbol_page sel fd c)).
Proof.
  intros H Hc.
  unfold show_symbol, st_columns, st_metric, st_pyplot, st_subheader,
    st_dataframe, st_download_button, df_tail, df_to_csv,
    bind, ret, deref, alloc, emit.
  repeat (progress (cbn [heap out fst snd];
                    rewrite ?H, ?Hc, ?lookup_new, ?(lookup_old _ _ _ _ H))).
  f_equal. f_equal.
  unfold symbol_page. rewrite <- !app_assoc. reflexivity.
Qed.

Lemma lookup_third h a b df :
  table_at (h ++ [a; b; Table df]) (length h + 2) = Some df.
Proof.
  unfold table_at. rewrite nth_error_app2 by lia.
  replace (length h + 2 - length h) with 2 by lia. reflexivity.
Qed.

(** Lines 102 to 107 when no row has the selected symbol. *)
Lemma show_selection_empty w s data df sel :
  table_at (heap s) data = Some df ->
  filtered_data df sel = [] ->
  show_selection data sel w s
  = (inr tt,
     mkState (heap s ++ [Table (getitem_mask df (eq_mask df sel));
                         Table (getitem_mask df (eq_mask df sel)); Table []])
             (out s ++ [st_warning_ev "No data found for selected symbol"])).
Proof.
  intros H He. unfold show_selection, bind.
  rewrite (select_symbol_run w s _ _ sel H), He.
  unfold df_len, bind, deref, ret. cbn [heap out].
  rewrite lookup_third. reflexivity.
Qed.

(** Lines 102 to 144 when some row has the selected symbol. *)
Lemma show_selection_page w s data df sel c :
  table_at (heap s) data = Some df ->
  iloc_last (column close (filtered_data df sel)) = Some c ->
  show_selection data sel w s
  = (inr tt,
     mkState (heap s ++ [Table (getitem_mask df (eq_mask df sel));
                         Table (getitem_mask df (eq_mask df sel));
                         Table (filtered_data df sel);
                         Table (tail 10 (filtered_data df sel))])
             (out s ++ symbol_page sel (filtered_data df sel) c)).
Proof.
  intros H Hc. unfold show_selection, bind.
  rewrite (select_symbol_run w s _ _ sel H).
  unfold df_len, bind, deref, ret. cbn [heap out].
  rewrite lookup_third.
  destruct (filtered_data df sel) as [|r fd] eqn:E; [discriminate Hc|].
  cbn [length Nat.eqb].
  erewrite show_symbol_run; [|apply lookup_third|exact Hc].
  cbn [heap out]. rewrite <- app_assoc. reflexivity.
Qed.

(** Lines 90 to 92: a table without rows. *)
Lemma show_data_no_rows w s data :
  table_at (heap s) data = Some [] ->
  show_data data w s
  = (inr tt,
     mkState (heap s)
             (out s ++ [st_error_ev "No data found in the loaded files"])).
Proof.
  intros H. unfold show_data, df_len, bind, deref, ret.
  rewrite H. reflexivity.
Qed.

(** Lines 94 to 100, then the rest for the symbol the select box
    returns. *)
Lemma show_data_run w s data df symbols :
  table_at (heap s) data = Some df ->
  df <> [] ->
  sorted (unique (column symbol df)) = inr symbols ->
  show_data data w s
  = show_selection data (nth (selectbox_index w) symbols (hd None symbols)) w
      (mkState (heap s)
               (out s ++ [st_success_ev (loaded_message df);
                          st_selectbox_ev "Select Stock Symbol:" symbols])).
Proof.
  intros H Hne Hs.
  unfold show_data, df_len, df_symbol_nunique, df_symbol_unique, py_sorted,
    st_success, st_selectbox, bind, deref, ret, emit, ask.
  destruct df as [|r df']; [congruence|].
  repeat (progress (cbn [heap out length Nat.eqb]; rewrite ?H, ?Hs)).
  rewrite <- app_assoc. reflexivity.
Qed.

(** Line 97 when [sorted] raises. *)
Lemma show_data_raises w s data df e :
  table_at (heap s) data = Some df ->
  df <> [] ->
  sorted (unique (column symbol df)) = inl e ->
  show_data data w s
  = (inl e, mkState (heap s) (out s ++ [st_success_ev (loaded_message df)])).
Proof.
  intros H Hne Hs.
  unfold show_data, df_len, df_symbol_nunique, df_symbol_unique, py_sorted,
    st_success, st_selectbox, bind, deref, ret, emit, ask, raise.
  destruct df as [|r df']; [congruence|].
  repeat (progress (cbn [heap out length Nat.eqb]; rewrite ?H, ?Hs)).
  reflexivity.
Qed.

End Runs.

(** ** Running the loaders *)

Section Loaders.

Lemma read_uploaded_files_run w files : forall dfs s,
  read_uploaded_files files dfs w s
  = (inr (dfs ++ parsed (map content files)),
     mkState (heap s)
             (out s ++ reading_files st_error_ev (map name files)
                                     (map content files))).
Proof.
  unfold reading_files.
  induction files as [|f files IH]; intros dfs s.
  - simpl. rewrite !app_nil_r. destruct s; reflexivity.
  - cbn [read_uploaded_files]. unfold bind at 1.
    unfold pd_read_csv_upload, bind, emit, ret.
    destruct (content f) as [e|df] eqn:E.
    + unfold st_error, emit. rewrite IH. cbn [heap out map combine].
      rewrite E. cbn. rewrite <- !app_assoc. reflexivity.
    + rewrite IH. cbn [heap out map combine]. rewrite E. cbn.
      rewrite <- !app_assoc. reflexivity.
Qed.

Lemma read_folder_files_run w files : forall dfs s,
  read_folder_files files dfs w s
  = (inr (dfs ++ parsed (map (csv_on_disk w) files)),
     mkState (heap s)
             (out s ++ reading_files st_warning_ev files
                                     (map (csv_on_disk w) files))).
Proof.
  unfold reading_files.
  induction files as [|f files IH]; intros dfs s.
  - simpl. rewrite !app_nil_r. destruct s; reflexivity.
  - cbn [read_folder_files]. unfold bind at 1.
    unfold pd_read_csv_path, bind, emit, ret, ask.
    destruct (csv_on_disk w f) as [e|df] eqn:E.
    + unfold st_warning, emit. rewrite IH. cbn [heap out map combine].
      rewrite E. cbn. rewrite <- !app_assoc. reflexivity.
    + rewrite IH. cbn [heap out map combine]. rewrite E. cbn.
      rewrite <- !app_assoc. reflexivity.
Qed.

(** A loader that finds no file returns [None]. *)
Lemma load_no_files w s src :
  file_names w src = [] ->
  load src w s = (inr None, mkState (heap s) (out s ++ reading w src)).
Proof.
  destruct src as [files|p]; cbn [load file_names]; intros H.
  - destruct files; [|discriminate H].
    unfold reading, reading_files. simpl. rewrite app_nil_r.
    destruct s; reflexivity.
  - unfold load_data_from_folder, glob_glob, bind, emit, ret, ask.
    unfold reading, reading_files. cbn [file_names inputs heap out].
    rewrite H. simpl. reflexivity.
Qed.

(** Either loader reads its files, then assembles what parsed. *)
Lemma load_run w s src :
  file_names w src <> [] ->
  load src w s
  = assemble (parsed (inputs w src)) w
             (mkState (heap s) (out s ++ reading w src)).
Proof.
  destruct src as [files|p]; cbn [load file_names inputs]; intros H.
  - destruct files as [|f files]; [exfalso; apply H; reflexivity|].
    unfold load_uploaded_data, bind.
    rewrite read_uploaded_files_run. cbn [app].
    unfold reading. cbn [app file_names inputs report_of].
    destruct (parsed _); reflexivity.
  - unfold load_data_from_folder, glob_glob, bind, emit, ret, ask.
    cbn [heap out]. unfold reading. cbn [file_names inputs report_of].
    destruct (glob_on_disk w (os_path_join p "*.csv")) as [|f files] eqn:G;
      [congruence|].
    rewrite read_folder_files_run. cbn [app heap out].
    rewrite <- app_assoc. cbn [app].
    destruct (parsed _); reflexivity.
Qed.

Lemma assemble_nil w s : assemble [] w s = (inr None, s).
Proof. reflexivity. Qed.

(** The table [pd.concat] returns is coerced in place: one new object. *)
Lemma assemble_ok w s dfs data :
  dfs <> [] ->
  to_datetime (strptime w) (concat dfs) = Some data ->
  assemble dfs w s
  = (inr (Some (length (heap s))), mkState (heap s ++ [Table data]) (out s)).
Proof.
  intros Hne H. destruct dfs as [|df dfs]; [congruence|].
  unfold assemble, pd_concat, df_setitem_to_datetime, bind, ask, ret, alloc,
    deref_raw, overwrite.
  cbn [heap out]. rewrite lookup_new_raw, H. cbn [heap out].
  rewrite update_last. reflexivity.
Qed.

(** When [pd.to_datetime] raises, the table is left as it was read. *)
Lemma assemble_raises w s dfs :
  dfs <> [] ->
  to_datetime (strptime w) (concat dfs) = None ->
  assemble dfs w s
  = (inl ValueError, mkState (heap s ++ [RawTable (concat dfs)]) (out s)).
Proof.
  intros Hne H. destruct dfs as [|df dfs]; [congruence|].
  unfold assemble, pd_concat, df_setitem_to_datetime, bind, ask, ret, alloc,
    deref_raw, raise.
  cbn [heap out]. rewrite lookup_new_raw, H. reflexivity.
Qed.

Lemma to_datetime_length p df data :
  to_datetime p df = Some data -> length data = length df.
Proof.
  revert data. induction df as [|[i r] df IH]; intros data H; simpl in H.
  - injection H as <-. reflexivity.
  - destruct (coerce_cell p (datetime r)); [|discriminate].
    destruct (to_datetime p df); [|discriminate].
    injection H as <-. simpl. f_equal. apply IH. reflexivity.
Qed.

Lemma concat_length {D} (dfs : list (list (record D))) :
  length (concat dfs) = list_sum (map (@length _) dfs).
Proof.
  unfold concat. rewrite length_combine, length_seq, Nat.min_id.
  induction dfs as [|df dfs IH]; simpl; [reflexivity|].
  rewrite length_app, IH. reflexivity.
Qed.

Lemma parsed_all tables : parsed (map inr tables) = tables.
Proof.
  induction tables as [|t ts IH]; [reflexivity|].
  change (parsed (map inr (t :: ts))) with (t :: parsed (map inr ts)).
  rewrite IH. reflexivity.
Qed.

Lemma inputs_length w src : length (inputs w src) = length (file_names w src).
Proof. destruct src; simpl; rewrite !length_map; reflexivity. Qed.

End Loaders.

(** ** Running a whole pass *)

Section Pass.

Lemma eqb_empty_false p : p <> "" -> String.eqb p "" = false.
Proof. intros H. apply String.eqb_neq. exact H. Qed.

Lemma run_pass_reads w src :
  reads w src ->
  run_pass w
  = match load src w (mkState [] (prelude src)) with
    | (inr (Some d), s') => show_data d w s'
    | (inr None, s') =>
        (inr tt, mkState (heap s') (out s' ++ no_data_report src))
    | (inl e, s') => (inl e, s')
    end.
Proof.
  intros [Hr Hu | Hr Hp He].
  - unfold run_pass, main, st_title, st_radio, upload_mode, st_file_uploader,
      bind, emit, ret, ask, initial.
    cbn [heap out app]. rewrite Hr. cbn [nth String.eqb Ascii.eqb Bool.eqb].
    destruct (uploaded w) as [|f files] eqn:U; [congruence|].
    cbn [load prelude app].
    destruct (load_uploaded_data (f :: files) w _) as [[e|[d|]] s'];
      try reflexivity.
    cbn [no_data_report]. rewrite app_nil_r. destruct s'; reflexivity.
  - unfold run_pass, main, st_title, st_radio, folder_mode, st_text_input,
      os_path_exists, st_error, bind, emit, ret, ask, initial.
    cbn [heap out app]. rewrite Hr. cbn [nth String.eqb Ascii.eqb Bool.eqb].
    rewrite (eqb_empty_false _ Hp). cbn [negb heap out app]. rewrite He.
    cbn [load prelude app].
    destruct (load_data_from_folder (folder_text w) w _) as [[e|[d|]] s'];
      reflexivity.
Qed.

(** Folder mode on a path that does not exist. *)
Lemma run_pass_missing_folder w :
  radio_index w = 1 -> folder_text w <> "" ->
  exists_on_disk w (folder_text w) = false ->
  run_pass w
  = (inr tt,
     mkState [] [the_title; the_radio; the_text_input;
                 os_path_exists_ev (folder_text w);
                 st_error_ev ("Folder does not exist: " ++ folder_text w)]).
Proof.
  intros Hr Hp He.
  unfold run_pass, main, st_title, st_radio, folder_mode, st_text_input,
    os_path_exists, st_error, bind, emit, ret, ask, initial.
  cbn [heap out app]. rewrite Hr. cbn [nth String.eqb Ascii.eqb Bool.eqb].
  rewrite (eqb_empty_false _ Hp). cbn [negb heap out app]. rewrite He.
  reflexivity.
Qed.

End Pass.

(** ** The format of the close *)

Section Formatting.

Lemma two_digits_shape n :
  (0 <= n < 100)%Z ->
  exists d1 d2, two_digits n = String d1 (String d2 "")
                /\ is_digit d1 = true /\ is_digit d2 = true.
Proof.
  intros Hn.
  assert (G : forallb (fun k =>
              match two_digits (Z.of_nat k) with
              | String d1 (String d2 "") => is_digit d1 && is_digit d2
              | _ => false
              end) (seq 0 100) = true) by (vm_compute; reflexivity).
  rewrite forallb_forall in G.
  specialize (G (Z.to_nat n)). rewrite Z2Nat.id in G by lia.
  assert (Hin : In (Z.to_nat n) (seq 0 100)) by (apply in_seq; lia).
  specialize (G Hin).
  destruct (two_digits n) as [|d1 [|d2 [|? ?]]]; try discriminate.
  apply andb_prop in G. exists d1, d2. tauto.
Qed.

(** A finite float prints with exactly two digits after the point. *)
Lemma format_2f_shape x :
  is_finite x = true ->
  exists whole d1 d2,
    format_2f x = (whole ++ "." ++ String d1 (String d2 ""))%string
    /\ is_digit d1 = true /\ is_digit d2 = true.
Proof.
  destruct x as [sg|sg| |sg m e]; try discriminate; intros _.
  - exists (sign_str sg ++ "0")%string, "0"%char, "0"%char.
    destruct sg; repeat split; reflexivity.
  - destruct (two_digits_shape (hundredths m e mod 100)) as (d1 & d2 & E & H1 & H2).
    { apply Z.mod_pos_bound. lia. }
    exists (sign_str sg ++ string_of_Z (hundredths m e / 100))%string, d1, d2.
    repeat split; try assumption.
    cbn [format_2f]. rewrite E.
    generalize (string_of_Z (hundredths m e / 100)). intros u.
    destruct sg; reflexivity.
Qed.

(** [round_half_even] is within half a unit of the quotient. *)
Lemma round_half_even_nearest n d :
  (0 < d)%Z -> (2 * Z.abs (round_half_even n d * d - n) <= d)%Z.
Proof.
  intros Hd. unfold round_half_even.
  pose proof (Z.div_mod n d ltac:(lia)) as E.
  pose proof (Z.mod_pos_bound n d Hd) as B.
  destruct (Z.compare_spec (2 * (n mod d)) d) as [C|C|C];
    [destruct (Z.even (n / d))| |]; nia.
Qed.

End Formatting.

(** ** The Filtered View and what is shown of it *)

Section Claims.

Lemma close_of_last (fv : DataFrame) latest :
  iloc_last fv = Some latest ->
  iloc_last (column close fv) = Some (close (snd latest)).
Proof.
  unfold iloc_last, column. rewrite <- map_rev.
  destruct (rev fv); [discriminate|].
  intros [= <-]. reflexivity.
Qed.

Lemma iloc_last_some {A} (l : list A) :
  l <> [] -> exists x, iloc_last l = Some x.
Proof.
  intros H. destruct (exists_last H) as [l' [a ->]].
  exists a. unfold iloc_last. rewrite rev_unit. reflexivity.
Qed.

Lemma iloc_last_is_last {A} (l : list A) x d :
  iloc_last l = Some x -> last l d = x.
Proof.
  intros H. assert (Hne : l <> []) by (intros ->; discriminate).
  rewrite (iloc_last_last l d Hne) in H. congruence.
Qed.

Lemma by_datetime_timestamps (a b : nat * Record_) x y :
  by_datetime a b -> datetime (snd a) = Some x -> datetime (snd b) = Some y ->
  (x <= y)%Z.
Proof.
  unfold by_datetime, dt_le. intros H Ha Hb. rewrite Ha, Hb in H.
  apply Z.leb_le, H.
Qed.

(** In a sorted table the timestamps ascend with the position. *)
Lemma sorted_timestamps_ascend (fv : DataFrame) :
  StronglySorted by_datetime fv ->
  forall i j ri rj ti tj,
    i < j ->
    nth_error fv i = Some ri -> nth_error fv j = Some rj ->
    datetime (snd ri) = Some ti -> datetime (snd rj) = Some tj ->
    (ti <= tj)%Z.
Proof.
  induction 1 as [|r fv Hs IH Hall]; intros i j ri rj ti tj Hij Hi Hj Ti Tj.
  - destruct i; discriminate Hi.
  - destruct j as [|j]; [lia|]. simpl in Hj. destruct i as [|i].
    + simpl in Hi. assert (r = ri) by congruence. subst ri.
      apply nth_error_In in Hj.
      rewrite Forall_forall in Hall. specialize (Hall _ Hj).
      exact (by_datetime_timestamps _ _ _ _ Hall Ti Tj).
    + simpl in Hi. apply (IH i j ri rj); (assumption || lia).
Qed.

(** A row that is not later than a row with a timestamp has a timestamp,
    not a later one. *)
Lemma not_later_than_timestamp (r latest : nat * Record_) t :
  by_datetime r latest -> datetime (snd latest) = Some t ->
  exists t', datetime (snd r) = Some t' /\ (t' <= t)%Z.
Proof.
  unfold by_datetime, dt_le. intros H E. rewrite E in H.
  destruct (datetime (snd r)) as [t'|]; [|discriminate H].
  exists t'. split; [reflexivity|]. apply Z.leb_le, H.
Qed.

(** C1. For every Dataset and every selected symbol, the Filtered View
    that lines 103 and 104 of the script build holds exactly the rows of
    the Dataset whose symbol equals the selection (each row once, with
    its label), ordered by non-decreasing datetime: of two rows with a
    timestamp the later one in the view has the later or the same
    timestamp, and rows without a datetime, which the order of
    [sort_values] puts last, come last. *)
Theorem filtered_view_exact_and_sorted w s data df S :
  table_at (heap s) data = Some df ->
  exists l s' fv,
    select_symbol data S w s = (inr l, s')
    /\ table_at (heap s') l = Some fv
    /\ Permutation fv (filter (fun r => sym_eqb (symbol (snd r)) S) df)
    /\ StronglySorted by_datetime fv
    /\ (forall i j ri rj ti tj,
           i < j ->
           nth_error fv i = Some ri -> nth_error fv j = Some rj ->
           datetime (snd ri) = Some ti -> datetime (snd rj) = Some tj ->
           (ti <= tj)%Z).
Proof.
  intros H. eexists _, _, (filtered_data df S). split.
  - apply select_symbol_run. exact H.
  - split; [apply lookup_third|]. split; [|split].
    + apply filtered_data_perm.
    + apply filtered_data_sorted.
    + apply sorted_timestamps_ascend, filtered_data_sorted.
Qed.

(** C3. For every non-empty Filtered View, the value shown under
    "Latest Close" is the close of the last row of the Filtered View, a
    row no other row of the view is later than (when it has a timestamp,
    every row has one and none has a later one), printed by the format
    [.2f] behind a dollar sign: for a finite close that is two digits
    after the point. *)
Theorem latest_close_is_last_row w s data df S latest :
  table_at (heap s) data = Some df ->
  iloc_last (filtered_data df S) = Some latest ->
  exists page,
    out (snd (show_selection data S w s)) = out s ++ page
    /\ metrics "Latest Close" page
       = [MStr ("$" ++ format_2f (close (snd latest)))]
    /\ Forall (fun r => by_datetime r latest) (filtered_data df S)
    /\ (forall t, datetime (snd latest) = Some t ->
        Forall (fun r => exists t', datetime (snd r) = Some t' /\ (t' <= t)%Z)
               (filtered_data df S))
    /\ (is_finite (close (snd latest)) = true ->
        exists whole d1 d2,
          format_2f (close (snd latest))
          = (whole ++ "." ++ String d1 (String d2 ""))%string
          /\ is_digit d1 = true /\ is_digit d2 = true).
Proof.
  intros H Hl.
  assert (Hlate : Forall (fun r => by_datetime r latest) (filtered_data df S)).
  { rewrite <- (iloc_last_is_last _ _ latest Hl).
    apply sorted_last_is_latest, filtered_data_sorted. }
  rewrite (show_selection_page w s data df S _ H (close_of_last _ _ Hl)).
  eexists. split; [reflexivity|]. split; [reflexivity|].
  split; [exact Hlate|]. split.
  - intros t Ht. eapply Forall_impl; [|exact Hlate].
    intros r Hr. exact (not_later_than_timestamp r latest t Hr Ht).
  - apply format_2f_shape.
Qed.

(** C8. For every non-empty Filtered View, the one table the script
    shows is the last min(10, length) rows of the Filtered View, in the
    order of the Filtered View. *)
Theorem preview_is_last_ten w s data df S :
  table_at (heap s) data = Some df ->
  filtered_data df S <> [] ->
  exists page shown before,
    out (snd (show_selection data S w s)) = out s ++ page
    /\ dataframes page = [shown]
    /\ filtered_data df S = before ++ shown
    /\ length shown = Nat.min 10 (length (filtered_data df S)).
Proof.
  intros H Hne.
  destruct (iloc_last_some (column close (filtered_data df S))) as [c Hc].
  { unfold column. intros E. apply map_eq_nil in E. contradiction. }
  rewrite (show_selection_page w s data df S c H Hc).
  eexists _, (tail 10 (filtered_data df S)), _.
  split; [reflexivity|]. split; [reflexivity|]. split.
  - apply tail_suffix.
  - apply tail_length.
Qed.

(** C10. Showing the data of a symbol leaves the Dataset as it was
    loaded: whatever the selection and however the pass ends, the table
    at the location of [data] has the same rows in the same order
    afterwards. *)
Theorem dataset_not_modified w s data df :
  table_at (heap s) data = Some df ->
  table_at (heap (snd (show_data data w s))) data = Some df.
Proof.
  intros H. eapply extends_lookup; [|exact H]. apply grows_show_data.
Qed.

End Claims.

(** ** The list of symbols *)

Section Symbols.

Lemma sym_same_eq a b : sym_same a b = true <-> a = b.
Proof.
  destruct a, b; simpl; try (split; congruence).
  rewrite String.eqb_eq. split; congruence.
Qed.

Lemma existsb_sym_same x seen : existsb (sym_same x) seen = true <-> In x seen.
Proof.
  rewrite existsb_exists. split.
  - intros (y & Hy & E). apply sym_same_eq in E. subst. exact Hy.
  - intros H. exists x. split; [exact H|]. apply sym_same_eq. reflexivity.
Qed.

Lemma unique_from_In x l : forall seen,
  In x (unique_from seen l) <-> In x l /\ ~ In x seen.
Proof.
  induction l as [|y l IH]; intros seen; simpl.
  - tauto.
  - destruct (existsb (sym_same y) seen) eqn:E.
    + apply existsb_sym_same in E. rewrite IH.
      split; [tauto|]. intros [[->|H] Hn]; tauto.
    + assert (Hy : ~ In y seen).
      { intros H. apply existsb_sym_same in H. congruence. }
      simpl. rewrite IH. simpl.
      destruct (sym_same y x) eqn:Eyx.
      * apply sym_same_eq in Eyx. subst. tauto.
      * assert (y <> x) by (intros ->; rewrite (proj2 (sym_same_eq x x) eq_refl) in Eyx; discriminate).
        tauto.
Qed.

Lemma unique_from_NoDup l : forall seen, NoDup (unique_from seen l).
Proof.
  induction l as [|y l IH]; intros seen; simpl; [constructor|].
  destruct (existsb (sym_same y) seen); [apply IH|].
  constructor; [|apply IH].
  rewrite unique_from_In. simpl. tauto.
Qed.

(** [unique] lists every value of the column, once. *)
Lemma unique_In x l : In x (unique l) <-> In x l.
Proof. unfold unique. rewrite unique_from_In. simpl. tauto. Qed.

Lemma unique_NoDup l : NoDup (unique l).
Proof. apply unique_from_NoDup. Qed.

Lemma unique_nil l : unique l = [] -> l = [].
Proof.
  destruct l as [|x l]; [reflexivity|]. intros H.
  assert (Hx : In x (unique (x :: l))) by (apply unique_In; left; reflexivity).
  rewrite H in Hx. destruct Hx.
Qed.

Lemma insert_str_perm x l : Permutation (insert_str x l) (x :: l).
Proof.
  induction l as [|y l IH]; simpl; [reflexivity|].
  destruct (String.leb x y); [reflexivity|].
  rewrite IH. apply perm_swap.
Qed.

Lemma sort_str_perm l : Permutation (sort_str l) l.
Proof.
  induction l as [|x l IH]; simpl; [constructor|].
  rewrite insert_str_perm. constructor. exact IH.
Qed.

Lemma insert_str_sorted x l :
  Sorted str_le l -> Sorted str_le (insert_str x l).
Proof.
  induction 1 as [|y l Hs IH Hhd]; simpl.
  - repeat constructor.
  - destruct (String.leb x y) eqn:E.
    + constructor; [constructor; assumption|]. constructor. exact E.
    + constructor; [exact IH|].
      assert (Hyx : str_le y x).
      { destruct (String.leb_total x y) as [T|T]; [congruence|exact T]. }
      destruct l as [|z l]; simpl.
      * constructor. exact Hyx.
      * destruct (String.leb x z); constructor; [exact Hyx|].
        inversion Hhd; assumption.
Qed.

Lemma sort_str_sorted l : Sorted str_le (sort_str l).
Proof.
  induction l as [|x l IH]; simpl; [constructor|].
  apply insert_str_sorted. exact IH.
Qed.

Lemma present_all {A} (l : list (option A)) :
  forallb notna l = true -> map Some (present l) = l.
Proof.
  induction l as [|[x|] l IH]; simpl; intros H; try discriminate.
  - reflexivity.
  - rewrite IH by exact H. reflexivity.
Qed.

Lemma present_In {A} (x : A) (l : list (option A)) :
  In x (present l) <-> In (Some x) l.
Proof.
  induction l as [|[y|] l IH]; simpl.
  - tauto.
  - rewrite IH. split; intros [H|H]; auto; left; congruence.
  - rewrite IH. split; [auto|]. intros [H|H]; [discriminate|exact H].
Qed.

Lemma present_NoDup {A} (l : list (option A)) : NoDup l -> NoDup (present l).
Proof.
  induction 1 as [|[y|] l Hn Hd IH]; simpl.
  - constructor.
  - constructor; [|exact IH]. rewrite present_In. exact Hn.
  - exact IH.
Qed.

(** Where no symbol is missing the select box is given the distinct
    symbols, each once, in ascending order. *)
Lemma symbols_sorted_distinct (df : DataFrame) :
  forallb notna (column symbol df) = true ->
  exists names,
    sorted (unique (column symbol df)) = inr (map Some names)
    /\ Sorted str_le names
    /\ NoDup names
    /\ forall x, In x names <-> In (Some x) (column symbol df).
Proof.
  intros H.
  exists (sort_str (present (unique (column symbol df)))).
  assert (Hu : forallb notna (unique (column symbol df)) = true).
  { rewrite forallb_forall in *. intros x Hx. apply H, unique_In, Hx. }
  split; [|split; [|split]].
  - unfold sorted. rewrite Hu. reflexivity.
  - apply sort_str_sorted.
  - eapply Permutation_NoDup; [symmetry; apply sort_str_perm|].
    apply present_NoDup, unique_NoDup.
  - intros x. rewrite <- unique_In, <- present_In.
    split; apply Permutation_in;
      [apply sort_str_perm | symmetry; apply sort_str_perm].
Qed.

(** Every symbol the select box offers is a symbol of the column. *)
Lemma sorted_In l l' x : sorted l = inr l' -> In x l' -> In x l.
Proof.
  unfold sorted. destruct (forallb notna l) eqn:E.
  - intros [= <-] Hx. rewrite <- (present_all l E).
    apply in_map_iff in Hx. destruct Hx as (y & <- & Hy).
    apply in_map. eapply Permutation_in; [apply sort_str_perm|exact Hy].
  - destruct (existsb notna l); [discriminate|]. intros [= <-]. auto.
Qed.

(** A symbol of the column has a row. *)
Lemma filtered_data_not_empty (df : DataFrame) x :
  In (Some x) (column symbol df) -> filtered_data df (Some x) <> [].
Proof.
  intros H E. unfold column in H. apply in_map_iff in H.
  destruct H as (r & Hr & Hin).
  assert (Hf : In r (filter (fun r => sym_eqb (symbol (snd r)) (Some x)) df)).
  { apply filter_In. split; [exact Hin|]. rewrite Hr. simpl.
    apply String.eqb_refl. }
  eapply Permutation_in in Hf; [|symmetry; apply filtered_data_perm].
  rewrite E in Hf. destruct Hf.
Qed.

(** [== NaN] is false on every row. *)
Lemma filtered_data_missing (df : DataFrame) : filtered_data df None = [].
Proof.
  unfold filtered_data. rewrite getitem_eq_mask.
  replace (filter _ df) with (@nil (nat * Record_)); [reflexivity|].
  symmetry. induction df as [|r df IH]; simpl; [reflexivity|].
  destruct (symbol (snd r)); simpl; exact IH.
Qed.

End Symbols.

(** ** Loading, and passes that show no data *)

Section LoadClaims.

Lemma to_datetime_undated p df data :
  to_datetime p df = Some data ->
  index data = index df /\ map undated (rows data) = map undated (rows df).
Proof.
  revert data. induction df as [|[i r] df IH]; intros data H; simpl in H.
  - injection H as <-. split; reflexivity.
  - destruct (coerce_cell p (datetime r)); [|discriminate].
    destruct (to_datetime p df) as [out|]; [|discriminate].
    injection H as <-. destruct (IH out eq_refl) as [Hi Hr].
    unfold index, rows in *. simpl. rewrite Hi, Hr. split; reflexivity.
Qed.

Lemma combine_seq_rows {D} (l : list (record D)) a :
  map fst (combine (seq a (length l)) l) = seq a (length l)
  /\ map snd (combine (seq a (length l)) l) = l.
Proof.
  revert a. induction l as [|r l IH]; intros a; simpl; [split; reflexivity|].
  destruct (IH (S a)) as [H1 H2]. rewrite H1, H2. split; reflexivity.
Qed.

Lemma concat_rows {D} (dfs : list (list (record D))) :
  index (concat dfs) = seq 0 (length (concat dfs))
  /\ rows (concat dfs) = List.concat dfs.
Proof.
  unfold index, rows. rewrite concat_length. unfold concat.
  destruct (combine_seq_rows (List.concat dfs) 0) as [H1 H2].
  rewrite H1, H2. split; [|reflexivity].
  f_equal. clear. induction dfs as [|df dfs IH]; simpl; [reflexivity|].
  rewrite length_app, IH. reflexivity.
Qed.

Lemma reading_files_all_fail report names errors :
  reading_files report names (map inl errors)
  = List.concat
      (map (fun fe => [read_csv_ev (fst fe);
                       report (could_not_load (fst fe) (snd fe))])
           (combine names errors)).
Proof.
  unfold reading_files. revert errors.
  induction names as [|f names IH]; intros [|e errors]; try reflexivity.
  simpl. rewrite IH. reflexivity.
Qed.

Lemma parsed_none errors : parsed (map inl errors) = [].
Proof.
  induction errors as [|e errors IH]; [reflexivity|].
  change (parsed (map inl (e :: errors))) with (parsed (map inl errors)).
  exact IH.
Qed.

(** C2. In upload mode and in folder mode alike, when every input file
    parses, a Dataset the loader returns has as many rows as the files have
    together: it holds the rows of the files, in the order the files were
    read, none dropped and none merged, under the labels 0, 1, 2, ...  The
    loader does return one as soon as there is a file and [pd.to_datetime]
    accepts the datetime column. *)
Theorem dataset_rows_are_sum_of_files w s src tables :
  inputs w src = map inr tables ->
  (forall d s',
      load src w s = (inr (Some d), s') ->
      exists data,
        table_at (heap s') d = Some data
        /\ length data = list_sum (map (@length _) tables)
        /\ map undated (rows data) = map undated (List.concat tables)
        /\ index data = seq 0 (length data))
  /\ (tables <> [] ->
      to_datetime (strptime w) (concat tables) <> None ->
      exists d s', load src w s = (inr (Some d), s')).
Proof.
  intros Hin.
  assert (Hp : parsed (inputs w src) = tables)
    by (rewrite Hin; apply parsed_all).
  destruct tables as [|t ts].
  - split; [|congruence]. intros d s' H.
    destruct (file_names w src) eqn:F.
    + rewrite (load_no_files _ _ _ F) in H. discriminate.
    + rewrite load_run, Hp in H by congruence. discriminate.
  - assert (F : file_names w src <> []).
    { intros F. pose proof (inputs_length w src) as L.
      rewrite F, Hin in L. discriminate. }
    rewrite (load_run _ _ _ F), Hp.
    destruct (to_datetime (strptime w) (concat (t :: ts))) as [data|] eqn:T.
    + rewrite (assemble_ok _ _ _ data) by (congruence || exact T).
      split.
      * intros d s' [= <- <-]. exists data. cbn [heap].
        destruct (to_datetime_undated _ _ _ T) as [Hi Hr].
        destruct (concat_rows (t :: ts)) as [Ci Cr].
        pose proof (to_datetime_length _ _ _ T) as L.
        split; [apply lookup_new|]. split; [|split].
        -- rewrite L. apply concat_length.
        -- rewrite Hr, Cr. reflexivity.
        -- rewrite Hi, Ci, L. reflexivity.
      * intros _ _. eauto.
    + rewrite assemble_raises by (congruence || exact T).
      split; [intros d s' H; discriminate|]. congruence.
Qed.

(** C6, as the script has it.  In both modes, when every input file fails
    to parse, the pass assembles no Dataset and shows nothing more: after
    the widgets come the reads, each followed by its report (an error
    naming the file in upload mode, a warning in folder mode), and folder
    mode ends with the error "No CSV files found in: <path>".  Upload mode
    adds no summary. *)
Theorem nothing_parsed_nothing_shown w src errors :
  reads w src ->
  inputs w src = map inl errors ->
  run_pass w
  = (inr tt, mkState [] (prelude src ++ reading w src ++ no_data_report src))
  /\ reading_files (report_of src) (file_names w src) (inputs w src)
     = List.concat
         (map (fun fe => [read_csv_ev (fst fe);
                          report_of src (could_not_load (fst fe) (snd fe))])
              (combine (file_names w src) errors)).
Proof.
  intros Hr Hin. split.
  - rewrite (run_pass_reads _ _ Hr).
    destruct (file_names w src) eqn:F.
    + rewrite (load_no_files _ _ _ F). cbn [heap out].
      rewrite <- app_assoc. reflexivity.
    + rewrite load_run by congruence.
      rewrite Hin, parsed_none, assemble_nil. cbn [heap out].
      rewrite <- app_assoc. reflexivity.
  - rewrite Hin. apply reading_files_all_fail.
Qed.

(** C7.  For every folder path entered in the text field that does not
    exist, folder mode reports "Folder does not exist: <path>" and the pass
    ends there: the loader is not called, no folder is scanned, no file is
    read, no table is built.  (A text field left empty is a missing input,
    which gets the prompt to enter a path.) *)
Theorem missing_folder_reported_not_scanned w :
  radio_index w = 1 ->
  folder_text w <> "" ->
  exists_on_disk w (folder_text w) = false ->
  run_pass w
  = (inr tt,
     mkState [] [the_title; the_radio; the_text_input;
                 os_path_exists_ev (folder_text w);
                 st_error_ev ("Folder does not exist: " ++ folder_text w)])
  /\ scans (out (snd (run_pass w))) = [].
Proof.
  intros Hr Hp He.
  rewrite (run_pass_missing_folder w Hr Hp He). split; reflexivity.
Qed.

End LoadClaims.

(** ** The select box and the guard on an empty selection *)

Section SelectionClaims.

Lemma symbol_page_has_no_warning sel fd c :
  ~ In the_guard_warning (symbol_page sel fd c).
Proof.
  unfold symbol_page, the_guard_warning. simpl.
  intros H. repeat (destruct H as [H|H]; [discriminate H|]). exact H.
Qed.

(** C9, as the script has it.  A symbol of the list given to the select
    box that is a name (not the missing value) has rows: its Filtered
    View is not empty and the warning of the guard is not shown.  The
    missing value, which the list holds when the symbol column is empty
    throughout, equals no cell: its Filtered View is empty and the
    warning of the guard is shown. *)
Theorem listed_name_has_rows w s data df symbols S :
  table_at (heap s) data = Some df ->
  sorted (unique (column symbol df)) = inr symbols ->
  In S symbols ->
  match S with
  | Some _ =>
      filtered_data df S <> []
      /\ exists page,
           out (snd (show_selection data S w s)) = out s ++ page
           /\ ~ In the_guard_warning page
  | None =>
      filtered_data df S = []
      /\ out (snd (show_selection data S w s)) = out s ++ [the_guard_warning]
  end.
Proof.
  intros H Hs Hin. destruct S as [x|].
  - assert (Hne : filtered_data df (Some x) <> []).
    { apply filtered_data_not_empty, unique_In.
      eapply sorted_In; eassumption. }
    split; [exact Hne|].
    destruct (iloc_last_some (column close (filtered_data df (Some x))))
      as [c Hc].
    { unfold column. intros E. apply map_eq_nil in E. contradiction. }
    rewrite (show_selection_page w s data df (Some x) c H Hc).
    eexists. split; [reflexivity|]. apply symbol_page_has_no_warning.
  - split; [apply filtered_data_missing|].
    rewrite (show_selection_empty w s data df None H (filtered_data_missing df)).
    reflexivity.
Qed.

Lemma NoDup_map_Some {A} (l : list A) : NoDup l -> NoDup (map Some l).
Proof.
  induction 1 as [|x l Hn Hd IH]; simpl; constructor; [|exact IH].
  intros H. apply in_map_iff in H. destruct H as (y & [= ->] & Hy).
  contradiction.
Qed.

Lemma present_map_Some {A} (l : list A) : present (map Some l) = l.
Proof. induction l as [|x l IH]; simpl; [reflexivity|]. rewrite IH. reflexivity. Qed.

Lemma present_none (l : list (option string)) :
  existsb notna l = false -> present l = [].
Proof.
  induction l as [|[x|] l IH]; simpl; intros H; try discriminate.
  - reflexivity.
  - apply IH, H.
Qed.


(** What [sorted] returns holds the same values, the names in ascending
    order. *)
Lemma sorted_spec (l l' : list (option string)) :
  sorted l = inr l' -> NoDup l ->
  NoDup l' /\ (forall x, In x l' <-> In x l) /\ Sorted str_le (present l').
Proof.
  unfold sorted. destruct (forallb notna l) eqn:F.
  - intros [= <-] Hd. rewrite present_map_Some. split; [|split].
    + apply NoDup_map_Some.
      eapply Permutation_NoDup; [symmetry; apply sort_str_perm|].
      apply present_NoDup, Hd.
    + intros [x|].
      * rewrite <- present_In, present_map_Some.
        rewrite <- (present_In x l).
        split; apply Permutation_in;
          [apply sort_str_perm | symmetry; apply sort_str_perm].
      * split.
        -- intros H. apply in_map_iff in H. destruct H as (y & Hy & _).
           discriminate Hy.
        -- intros H. rewrite forallb_forall in F. specialize (F _ H).
           discriminate F.
    + apply sort_str_sorted.
  - destruct (existsb notna l) eqn:E; [discriminate|].
    intros [= <-] Hd. split; [exact Hd|]. split; [tauto|].
    rewrite (present_none l E). constructor.
Qed.












End SelectionClaims.

(** ** Inputs on which a claim of the specification fails *)

Section Counterexamples.

(** C9: the only row has an empty symbol cell.  The list of symbols is
    [nan], the select box returns it, no row equals it, and the pass ends
    on the warning of the guard. *)
Lemma missing_selection_reaches_guard :
  blank_symbol_data <> []
  /\ sorted (unique (column symbol blank_symbol_data)) = inr [None]
  /\ In (@None string) [None]
  /\ filtered_data blank_symbol_data None = []
  /\ run_pass blank_symbol_world
     = (inr tt,
        mkState [Table blank_symbol_data; Table []; Table []; Table []]
                [the_title; the_radio; the_uploader; read_csv_ev "prices.csv";
                 st_success_ev "✅ Loaded 1 records from 0 symbols";
                 st_selectbox_ev "Select Stock Symbol:" [None];
                 the_guard_warning]).
Proof.
  split; [discriminate|]. split; [reflexivity|]. split; [left; reflexivity|].
  split; [reflexivity|]. vm_compute. reflexivity.
Qed.


(** C6: upload mode, one file, which [pd.read_csv] rejects.  The pass
    shows the error naming the file and nothing else: no "No data found"
    report. *)
Lemma unreadable_upload_has_no_summary :
  reads unreadable_upload_world (Upload (uploaded unreadable_upload_world))
  /\ parsed (inputs unreadable_upload_world
                    (Upload (uploaded unreadable_upload_world))) = []
  /\ run_pass unreadable_upload_world
     = (inr tt,
        mkState [] [the_title; the_radio; the_uploader; read_csv_ev "bad.csv";
                    st_error_ev
                      "Could not load bad.csv: No columns to parse from file"])
  /\ ~ In the_no_data_error (out (snd (run_pass unreadable_upload_world))).
Proof.
  split; [constructor; [reflexivity|discriminate]|].
  split; [reflexivity|]. split; [vm_compute; reflexivity|].
  vm_compute. intros H.
  repeat (destruct H as [H|H]; [discriminate H|]). exact H.
Qed.

End Counterexamples.

(** ** The theorems at the scenario of two files *)

Section Witnesses.

Lemma filtered_view_exact_and_sorted_witness :
  table_at (heap scenario_state) 0 = Some scenario_data
  /\ exists l s' fv,
       select_symbol 0 (Some "AAPL") (two_files_uploaded 0) scenario_state
       = (inr l, s')
       /\ table_at (heap s') l = Some fv
       /\ Permutation fv
            (filter (fun r => sym_eqb (symbol (snd r)) (Some "AAPL"))
                    scenario_data)
       /\ StronglySorted by_datetime fv
       /\ (forall i j ri rj ti tj,
              i < j ->
              nth_error fv i = Some ri -> nth_error fv j = Some rj ->
              datetime (snd ri) = Some ti -> datetime (snd rj) = Some tj ->
              (ti <= tj)%Z).
Proof.
  split; [reflexivity|].
  apply (filtered_view_exact_and_sorted (two_files_uploaded 0) scenario_state
           0 scenario_data (Some "AAPL")).
  reflexivity.
Defined.

Lemma dataset_rows_are_sum_of_files_witness :
  inputs (two_files_uploaded 0) (Upload (uploaded (two_files_uploaded 0)))
  = map inr [A_csv; B_csv]
  /\ ((forall d s',
          load (Upload (uploaded (two_files_uploaded 0)))
               (two_files_uploaded 0) initial = (inr (Some d), s') ->
          exists data,
            table_at (heap s') d = Some data
            /\ length data = list_sum (map (@length _) [A_csv; B_csv])
            /\ map undated (rows data)
               = map undated (List.concat [A_csv; B_csv])
            /\ index data = seq 0 (length data))
      /\ ([A_csv; B_csv] <> [] ->
          to_datetime (strptime (two_files_uploaded 0))
                      (concat [A_csv; B_csv]) <> None ->
          exists d s',
            load (Upload (uploaded (two_files_uploaded 0)))
                 (two_files_uploaded 0) initial = (inr (Some d), s'))).
Proof.
  split; [reflexivity|].
  apply (dataset_rows_are_sum_of_files (two_files_uploaded 0) initial
           (Upload (uploaded (two_files_uploaded 0))) [A_csv; B_csv]).
  reflexivity.
Defined.

Lemma latest_close_is_last_row_witness :
  table_at (heap scenario_state) 0 = Some scenario_data
  /\ iloc_last (filtered_data scenario_data (Some "AAPL")) = Some latest_aapl
  /\ exists page,
       out (snd (show_selection 0 (Some "AAPL") (two_files_uploaded 0)
                                scenario_state))
       = out scenario_state ++ page
       /\ metrics "Latest Close" page
          = [MStr ("$" ++ format_2f (close (snd latest_aapl)))]
       /\ Forall (fun r => by_datetime r latest_aapl)
                 (filtered_data scenario_data (Some "AAPL"))
       /\ (forall t, datetime (snd latest_aapl) = Some t ->
           Forall (fun r => exists t',
                              datetime (snd r) = Some t' /\ (t' <= t)%Z)
                  (filtered_data scenario_data (Some "AAPL")))
       /\ (is_finite (close (snd latest_aapl)) = true ->
           exists whole d1 d2,
             format_2f (close (snd latest_aapl))
             = (whole ++ "." ++ String d1 (String d2 ""))%string
             /\ is_digit d1 = true /\ is_digit d2 = true).
Proof.
  split; [reflexivity|]. split; [reflexivity|].
  apply (latest_close_is_last_row (two_files_uploaded 0) scenario_state 0
           scenario_data (Some "AAPL") latest_aapl); reflexivity.
Defined.

Lemma preview_is_last_ten_witness :
  table_at (heap scenario_state) 0 = Some scenario_data
  /\ filtered_data scenario_data (Some "AAPL") <> []
  /\ exists page shown before,
       out (snd (show_selection 0 (Some "AAPL") (two_files_uploaded 0)
                                scenario_state))
       = out scenario_state ++ page
       /\ dataframes page = [shown]
       /\ filtered_data scenario_data (Some "AAPL") = before ++ shown
       /\ length shown
          = Nat.min 10 (length (filtered_data scenario_data (Some "AAPL"))).
Proof.
  split; [reflexivity|]. split; [vm_compute; discriminate|].
  apply (preview_is_last_ten (two_files_uploaded 0) scenario_state 0
           scenario_data (Some "AAPL")).
  - reflexivity.
  - vm_compute. discriminate.
Defined.

Lemma dataset_not_modified_witness :
  table_at (heap scenario_state) 0 = Some scenario_data
  /\ table_at (heap (snd (show_data 0 (two_files_uploaded 0) scenario_state)))
               0 = Some scenario_data.
Proof.
  split; [reflexivity|].
  apply (dataset_not_modified (two_files_uploaded 0) scenario_state 0
           scenario_data).
  reflexivity.
Defined.

Lemma nothing_parsed_nothing_shown_witness :
  reads unreadable_folder_world (Folder "/data")
  /\ inputs unreadable_folder_world (Folder "/data")
     = map inl ["No columns to parse from file"]
  /\ run_pass unreadable_folder_world
     = (inr tt,
        mkState [] (prelude (Folder "/data")
                    ++ reading unreadable_folder_world (Folder "/data")
                    ++ no_data_report (Folder "/data"))).
Proof.
  assert (R : reads unreadable_folder_world (Folder "/data")).
  { apply (reads_folder unreadable_folder_world);
      [reflexivity | discriminate | reflexivity]. }
  split; [exact R|]. split; [reflexivity|].
  apply (nothing_parsed_nothing_shown unreadable_folder_world (Folder "/data")
           ["No columns to parse from file"] R).
  reflexivity.
Defined.

Lemma missing_folder_reported_not_scanned_witness :
  radio_index missing_folder_world = 1
  /\ folder_text missing_folder_world <> ""
  /\ exists_on_disk missing_folder_world (folder_text missing_folder_world)
     = false
  /\ run_pass missing_folder_world
     = (inr tt,
        mkState [] [the_title; the_radio; the_text_input;
                    os_path_exists_ev "/nowhere";
                    st_error_ev "Folder does not exist: /nowhere"]).
Proof.
  split; [reflexivity|]. split; [discriminate|]. split; [reflexivity|].
  apply (missing_folder_reported_not_scanned missing_folder_world);
    [reflexivity | discriminate | reflexivity].
Defined.


Lemma listed_name_has_rows_witness :
  table_at (heap scenario_state) 0 = Some scenario_data
  /\ sorted (unique (column symbol scenario_data))
     = inr [Some "AAPL"; Some "MSFT"]
  /\ In (Some "AAPL") [Some "AAPL"; Some "MSFT"]
  /\ filtered_data scenario_data (Some "AAPL") <> [].
Proof.
  split; [reflexivity|]. split; [reflexivity|].
  split; [left; reflexivity|].
  apply (listed_name_has_rows (two_files_uploaded 0) scenario_state 0
           scenario_data [Some "AAPL"; Some "MSFT"] (Some "AAPL"));
    [reflexivity | reflexivity | left; reflexivity].
Defined.

End Witnesses.

(** * Further properties of the script *)

(** ** Every pass *)

Section EveryPass.

Lemma data_source_cases w :
  upload_chosen w = true
  \/ (upload_chosen w = false /\ radio_index w = 1).
Proof.
  unfold upload_chosen, data_source.
  destruct (radio_index w) as [|[|[|n]]]; simpl; auto.
Qed.

(** The script up to the choice of the mode. *)
Lemma run_pass_modes w :
  run_pass w
  = bind (if upload_chosen w then upload_mode else folder_mode)
         (fun data => match data with
                      | Some d => show_data d
                      | None => ret tt
                      end)
         w (mkState [] [the_title; the_radio]).
Proof. reflexivity. Qed.

(** Upload mode with nothing uploaded. *)
Lemma run_pass_nothing_uploaded w :
  upload_chosen w = true -> uploaded w = [] ->
  run_pass w
  = (inr tt,
     mkState [] [the_title; the_radio; the_uploader;
                 st_info_ev "👆 Please upload your CSV files to get started"]).
Proof.
  intros Hu He. rewrite run_pass_modes, Hu.
  unfold bind, upload_mode, st_file_uploader, st_info, bind, emit, ret, ask.
  cbn [heap out app]. rewrite He. reflexivity.
Qed.

(** Folder mode with nothing typed. *)
Lemma run_pass_nothing_typed w :
  upload_chosen w = false -> folder_text w = "" ->
  run_pass w
  = (inr tt,
     mkState [] [the_title; the_radio; the_text_input;
                 st_info_ev "👆 Please enter a folder path to get started"]).
Proof.
  intros Hu He. rewrite run_pass_modes, Hu.
  unfold bind, folder_mode, st_text_input, st_info, bind, emit, ret, ask.
  cbn [heap out app]. rewrite He. reflexivity.
Qed.

(** A pass that gets to a loader. *)
Lemma run_pass_loads w src :
  source_of w = Some src ->
  run_pass w
  = match load src w (mkState [] (prelude src)) with
    | (inr (Some d), s') => show_data d w s'
    | (inr None, s') =>
        (inr tt, mkState (heap s') (out s' ++ no_data_report src))
    | (inl e, s') => (inl e, s')
    end.
Proof.
  unfold source_of. intros H. rewrite run_pass_modes.
  destruct (upload_chosen w) eqn:Hu.
  - destruct (uploaded w) as [|f files] eqn:U; [discriminate|].
    injection H as <-.
    unfold bind at 1. unfold upload_mode, st_file_uploader, bind, emit, ret, ask.
    cbn [heap out app]. rewrite U. cbn [load prelude app].
    destruct (load_uploaded_data (f :: files) w _) as [[e|[d|]] s'];
      try reflexivity.
    cbn [no_data_report]. rewrite app_nil_r. destruct s'; reflexivity.
  - destruct (String.eqb (folder_text w) "") eqn:Hp; [discriminate|].
    destruct (exists_on_disk w (folder_text w)) eqn:He; [|discriminate].
    injection H as <-.
    unfold bind at 1.
    unfold folder_mode, st_text_input, os_path_exists, st_error, bind, emit,
      ret, ask.
    cbn [heap out app]. rewrite Hp. cbn [negb heap out app]. rewrite He.
    cbn [load prelude app].
    destruct (load_data_from_folder (folder_text w) w _) as [[e|[d|]] s'];
      reflexivity.
Qed.

(** Whatever a loader returns, its trace is the reads of its files. *)
Lemma load_out w s src :
  out (snd (load src w s)) = out s ++ reading w src.
Proof.
  destruct (file_names w src) as [|f fs] eqn:F.
  - rewrite (load_no_files _ _ _ F). reflexivity.
  - rewrite load_run by congruence.
    destruct (parsed (inputs w src)) as [|t ts] eqn:P.
    + rewrite assemble_nil. reflexivity.
    + destruct (to_datetime (strptime w) (concat (t :: ts))) as [data|] eqn:T.
      * rewrite (assemble_ok _ _ _ data) by (congruence || exact T).
        reflexivity.
      * rewrite assemble_raises by (congruence || exact T). reflexivity.
Qed.

(** What a loader leaves in the store and returns. *)
Lemma load_result w s src :
  load src w s
  = match parsed (inputs w src) with
    | [] => (inr None, mkState (heap s) (out s ++ reading w src))
    | t :: ts =>
        match to_datetime (strptime w) (concat (t :: ts)) with
        | Some data =>
            (inr (Some (length (heap s))),
             mkState (heap s ++ [Table data]) (out s ++ reading w src))
        | None =>
            (inl ValueError,
             mkState (heap s ++ [RawTable (concat (t :: ts))])
                     (out s ++ reading w src))
        end
    end.
Proof.
  destruct (file_names w src) as [|f fs] eqn:F.
  - rewrite (load_no_files _ _ _ F).
    assert (I : inputs w src = []).
    { apply length_zero_iff_nil. rewrite inputs_length, F. reflexivity. }
    rewrite I. reflexivity.
  - rewrite load_run by congruence.
    destruct (parsed (inputs w src)) as [|t ts] eqn:P.
    + rewrite assemble_nil. reflexivity.
    + destruct (to_datetime (strptime w) (concat (t :: ts))) as [data|] eqn:T.
      * rewrite (assemble_ok _ _ _ data) by (congruence || exact T).
        reflexivity.
      * rewrite assemble_raises by (congruence || exact T). reflexivity.
Qed.

End EveryPass.

(** ** How a pass ends, and what it reads *)

Section Outcomes.

Lemma notna_unique_forall (l : list (option string)) :
  forallb notna (unique l) = forallb notna l.
Proof.
  apply eq_true_iff_eq. rewrite !forallb_forall.
  split; intros H x Hx; apply H; apply unique_In; exact Hx.
Qed.

Lemma notna_unique_exists (l : list (option string)) :
  existsb notna (unique l) = existsb notna l.
Proof.
  apply eq_true_iff_eq. rewrite !existsb_exists.
  split; intros (x & Hx & Hn); exists x; (split; [|exact Hn]);
    apply unique_In; exact Hx.
Qed.

Lemma mixes_unique (l : list (option string)) : mixes (unique l) = mixes l.
Proof.
  unfold mixes. rewrite notna_unique_forall, notna_unique_exists. reflexivity.
Qed.

(** [sorted] raises exactly on a list that mixes names and NaN, and then
    [TypeError]. *)
Lemma sorted_mixes (l : list (option string)) :
  (mixes l = true /\ sorted l = inl TypeError)
  \/ (mixes l = false /\ exists l', sorted l = inr l').
Proof.
  unfold mixes, sorted.
  destruct (forallb notna l); [right; eauto|].
  destruct (existsb notna l); [left|right]; eauto.
Qed.

Lemma show_selection_returns w s data df sel :
  table_at (heap s) data = Some df ->
  fst (show_selection data sel w s) = inr tt.
Proof.
  intros H. destruct (filtered_data df sel) as [|r fd] eqn:E.
  - rewrite (show_selection_empty w s data df sel H E). reflexivity.
  - destruct (iloc_last_some (column close (filtered_data df sel))) as [c Hc].
    { rewrite E. discriminate. }
    rewrite (show_selection_page w s data df sel c H Hc). reflexivity.
Qed.

Lemma show_selection_quiet w s data df sel :
  table_at (heap s) data = Some df ->
  exists page,
    out (snd (show_selection data sel w s)) = out s ++ page
    /\ io_calls page = [].
Proof.
  intros H. destruct (filtered_data df sel) as [|r fd] eqn:E.
  - rewrite (show_selection_empty w s data df sel H E).
    eexists. split; reflexivity.
  - destruct (iloc_last_some (column close (filtered_data df sel))) as [c Hc].
    { rewrite E. discriminate. }
    rewrite (show_selection_page w s data df sel c H Hc).
    eexists. split; reflexivity.
Qed.

(** Lines 90 to 144 end normally, or on the [TypeError] of line 97. *)
Lemma show_data_result w s data df :
  table_at (heap s) data = Some df ->
  fst (show_data data w s)
  = if mixes (column symbol df) then inl TypeError else inr tt.
Proof.
  intros H. destruct df as [|r df'].
  - rewrite (show_data_no_rows w s data H). reflexivity.
  - rewrite <- mixes_unique.
    destruct (sorted_mixes (unique (column symbol (r :: df'))))
      as [[M S]|[M [symbols S]]]; rewrite M.
    + rewrite (show_data_raises w s data _ _ H ltac:(discriminate) S).
      reflexivity.
    + rewrite (show_data_run w s data _ symbols H ltac:(discriminate) S).
      eapply show_selection_returns. exact H.
Qed.

(** Lines 90 to 144 touch no file. *)
Lemma show_data_quiet w s data df :
  table_at (heap s) data = Some df ->
  exists page,
    out (snd (show_data data w s)) = out s ++ page /\ io_calls page = [].
Proof.
  intros H. destruct df as [|r df'].
  - rewrite (show_data_no_rows w s data H). eexists. split; reflexivity.
  - destruct (sorted_mixes (unique (column symbol (r :: df'))))
      as [[M S]|[M [symbols S]]].
    + rewrite (show_data_raises w s data _ _ H ltac:(discriminate) S).
      eexists. split; reflexivity.
    + rewrite (show_data_run w s data _ symbols H ltac:(discriminate) S).
      match goal with
      | |- context [show_selection data ?sel w ?s1] =>
          destruct (show_selection_quiet w s1 data (r :: df') sel H)
            as (page & Hp & Hq); rewrite Hp
      end.
      cbn [out]. rewrite <- app_assoc. eexists. split; [reflexivity|].
      cbn [app io_calls filter is_io]. exact Hq.
Qed.

Lemma io_calls_app l1 l2 : io_calls (l1 ++ l2) = io_calls l1 ++ io_calls l2.
Proof. apply filter_app. Qed.

Lemma io_calls_reading_files report names (f : string -> read_result) :
  (forall m, is_io (report m) = false) ->
  io_calls (reading_files report names (map f names)) = map read_csv_ev names.
Proof.
  intros Hr. unfold reading_files.
  induction names as [|n names IH]; [reflexivity|].
  cbn [map combine List.concat fst snd]. rewrite io_calls_app, IH.
  unfold read_events. destruct (f n) as [e|df]; cbn [io_calls filter is_io app].
  - rewrite Hr. reflexivity.
  - reflexivity.
Qed.

Lemma io_calls_reading_uploads report (files : list UploadedFile) :
  (forall m, is_io (report m) = false) ->
  io_calls (reading_files report (map name files) (map content files))
  = map read_csv_ev (map name files).
Proof.
  intros Hr. unfold reading_files.
  induction files as [|f files IH]; [reflexivity|].
  cbn [map combine List.concat fst snd]. rewrite io_calls_app, IH.
  unfold read_events. destruct (content f) as [e|df];
    cbn [io_calls filter is_io app].
  - rewrite Hr. reflexivity.
  - reflexivity.
Qed.

Lemma io_calls_reading w src :
  io_calls (reading w src)
  = match src with
    | Upload files => map read_csv_ev (map name files)
    | Folder p =>
        glob_ev (os_path_join p "*.csv") ::
        map read_csv_ev (glob_on_disk w (os_path_join p "*.csv"))
    end.
Proof.
  destruct src as [files|p]; unfold reading;
    cbn [app report_of file_names inputs].
  - apply io_calls_reading_uploads. reflexivity.
  - cbn [io_calls filter is_io]. f_equal.
    apply io_calls_reading_files. reflexivity.
Qed.

(** The state a pass is in once the loader has returned a Dataset. *)
Lemma loaded_table w src t ts data :
  parsed (inputs w src) = t :: ts ->
  to_datetime (strptime w) (concat (t :: ts)) = Some data ->
  load src w (mkState [] (prelude src))
  = (inr (Some 0), mkState [Table data] (prelude src ++ reading w src)).
Proof.
  intros P T. rewrite load_result, P, T. reflexivity.
Qed.

End Outcomes.

(** ** Properties of whole passes *)

Section WholePass.

Lemma source_of_none w :
  source_of w = None ->
  (upload_chosen w = true /\ uploaded w = [])
  \/ (upload_chosen w = false /\ folder_text w = "")
  \/ (upload_chosen w = false /\ radio_index w = 1 /\ folder_text w <> ""
      /\ exists_on_disk w (folder_text w) = false).
Proof.
  unfold source_of. intros H.
  destruct (data_source_cases w) as [Hu|[Hu Hr]]; rewrite Hu in H.
  - left. destruct (uploaded w); [auto|discriminate].
  - right. destruct (String.eqb_spec (folder_text w) "") as [E|E]; [auto|].
    right. destruct (exists_on_disk w (folder_text w)); [discriminate|auto].
Qed.

(** X1. Upload mode with no file uploaded: the pass shows the title, the
    two widgets and the prompt to upload, reads nothing and builds no
    table. *)
Theorem nothing_uploaded_is_prompted w :
  upload_chosen w = true ->
  uploaded w = [] ->
  run_pass w
  = (inr tt,
     mkState [] [the_title; the_radio; the_uploader;
                 st_info_ev "👆 Please upload your CSV files to get started"])
  /\ io_calls (out (snd (run_pass w))) = [].
Proof.
  intros Hu He. rewrite (run_pass_nothing_uploaded w Hu He).
  split; reflexivity.
Qed.

(** X2. On files of the data model (every file that parses has the three
    columns, symbol as text, close as float64), however a pass goes, it
    ends normally or on one of two exceptions: [ValueError] when files
    parsed and [pd.to_datetime] rejects the datetime column, [TypeError]
    when the Dataset's symbol column mixes names and missing cells.  In
    particular [iloc[-1]] on line 117 is never out of bounds. *)
Theorem pass_ends w :
  fst (run_pass w)
  = match source_of w with
    | None => inr tt
    | Some src =>
        match parsed (inputs w src) with
        | [] => inr tt
        | t :: ts =>
            match to_datetime (strptime w) (concat (t :: ts)) with
            | None => inl ValueError
            | Some data =>
                if mixes (column symbol data) then inl TypeError else inr tt
            end
        end
    end.
Proof.
  destruct (source_of w) as [src|] eqn:S.
  - rewrite (run_pass_loads w src S), load_result.
    destruct (parsed (inputs w src)) as [|t ts]; [reflexivity|].
    destruct (to_datetime (strptime w) (concat (t :: ts))) as [data|];
      [|reflexivity].
    apply show_data_result. reflexivity.
  - destruct (source_of_none w S) as [[Hu He]|[[Hu He]|(Hu & Hr & Hp & He)]].
    + rewrite (run_pass_nothing_uploaded w Hu He). reflexivity.
    + rewrite (run_pass_nothing_typed w Hu He). reflexivity.
    + rewrite (run_pass_missing_folder w Hr Hp He). reflexivity.
Qed.

(** On an empty cache: the calls of a pass depend on the widgets only, and
    nothing is read after the loader, whatever the pass shows or raises. *)
Lemma cold_pass_io w : io_calls (out (snd (run_pass w))) = expected_io w.
Proof.
  unfold expected_io.
  destruct (source_of w) as [src|] eqn:S.
  - rewrite (run_pass_loads w src S).
    assert (P : io_calls (prelude src ++ reading w src) = expected_io w).
    { unfold expected_io, source_of in *.
      destruct (upload_chosen w).
      - destruct (uploaded w) as [|f files] eqn:U; [discriminate|].
        injection S as <-. rewrite io_calls_app, io_calls_reading.
        reflexivity.
      - destruct (String.eqb (folder_text w) ""); [discriminate|].
        destruct (exists_on_disk w (folder_text w)); [|discriminate].
        injection S as <-. rewrite io_calls_app, io_calls_reading.
        reflexivity. }
    unfold expected_io in P. rewrite <- P.
    rewrite load_result.
    destruct (parsed (inputs w src)) as [|t ts].
    + cbn [snd out heap]. rewrite io_calls_app.
      destruct src; cbn [no_data_report io_calls filter is_io];
        rewrite ?app_nil_r; reflexivity.
    + destruct (to_datetime (strptime w) (concat (t :: ts))) as [data|];
        [|reflexivity].
      cbn [heap out length app].
      destruct (show_data_quiet w (mkState [Table data]
                                           (prelude src ++ reading w src))
                                0 data eq_refl) as (page & Hp & Hq).
      rewrite Hp. cbn [out].
      rewrite io_calls_app, Hq, app_nil_r. reflexivity.
  - destruct (source_of_none w S) as [[Hu He]|[[Hu He]|(Hu & Hr & Hp & He)]].
    + rewrite (run_pass_nothing_uploaded w Hu He), Hu, He. reflexivity.
    + rewrite (run_pass_nothing_typed w Hu He), Hu, He. reflexivity.
    + rewrite (run_pass_missing_folder w Hr Hp He), Hu, He.
      rewrite (eqb_empty_false _ Hp). reflexivity.
Qed.

Lemma main_cached_cold : main_cached nothing_cached = main.
Proof. reflexivity. Qed.

Lemma replay_run warnings : forall w s,
  replay warnings w s
  = (inr tt, mkState (heap s) (out s ++ map st_warning_ev warnings)).
Proof.
  induction warnings as [|m ws IH]; intros w s.
  - cbn [replay map]. rewrite app_nil_r. destruct s; reflexivity.
  - cbn [replay map]. unfold bind, st_warning, emit. rewrite IH.
    cbn [heap out]. rewrite <- app_assoc. reflexivity.
Qed.

Lemma io_calls_warnings warnings : io_calls (map st_warning_ev warnings) = [].
Proof. induction warnings as [|m ws IH]; [reflexivity|exact IH]. Qed.

(** The script on a cache, up to the choice of the mode. *)
Lemma run_pass_cached_modes c w :
  run_pass_cached c w
  = bind (if upload_chosen w then upload_mode else folder_mode_cached c)
         (fun data => match data with
                      | Some d => show_data d
                      | None => ret tt
                      end)
         w (mkState [] [the_title; the_radio]).
Proof. reflexivity. Qed.

(** Without an entry for the path that was typed, the pass is the pass of
    the script on an empty cache. *)
Lemma run_pass_cached_miss c w :
  upload_chosen w = true \/ c (folder_text w) = None ->
  run_pass_cached c w = run_pass w.
Proof.
  intros H. rewrite run_pass_cached_modes, run_pass_modes.
  destruct (upload_chosen w); [reflexivity|].
  destruct H as [H|H]; [discriminate|].
  assert (E : forall s, folder_mode_cached c w s = folder_mode w s).
  { intros s.
    unfold folder_mode_cached, folder_mode, st_text_input, os_path_exists,
      bind, emit, ret, ask.
    cbn [heap out app].
    destruct (String.eqb (folder_text w) ""); [reflexivity|]. cbn [negb].
    destruct (exists_on_disk w (folder_text w)); [|reflexivity].
    unfold cached_load_data_from_folder. rewrite H. reflexivity. }
  unfold bind at 1. rewrite E. reflexivity.
Qed.

(** With an entry for the path that was typed, the pass shows the cached
    warnings and goes on with a copy of the cached value. *)
Lemma run_pass_cached_hit c w call :
  upload_chosen w = false ->
  String.eqb (folder_text w) "" = false ->
  exists_on_disk w (folder_text w) = true ->
  c (folder_text w) = Some call ->
  run_pass_cached c w
  = match cached_value call with
    | Some df =>
        show_data 0 w
          (mkState [Table df]
                   (prelude (Folder (folder_text w))
                    ++ map st_warning_ev (cached_warnings call)))
    | None =>
        (inr tt,
         mkState []
           (prelude (Folder (folder_text w))
            ++ map st_warning_ev (cached_warnings call)
            ++ no_data_report (Folder (folder_text w))))
    end.
Proof.
  intros Hu Hp He Hc. rewrite run_pass_cached_modes, Hu.
  unfold bind at 1.
  unfold folder_mode_cached, st_text_input, os_path_exists, st_error.
  unfold bind, emit, ret, ask. cbn [heap out app]. rewrite Hp. cbn [negb].
  cbn [heap out app]. rewrite He.
  unfold cached_load_data_from_folder. rewrite Hc.
  unfold bind. rewrite replay_run. cbn [heap out].
  destruct (cached_value call) as [df|].
  - unfold alloc, ret. cbn [heap out length app prelude]. reflexivity.
  - unfold ret. cbn [heap out app prelude no_data_report].
    reflexivity.
Qed.

(** X3. The file-system calls and file reads of a pass of the running
    application are fixed by its widgets and by what [st.cache_data] holds:
    upload mode reads each uploaded file once, in order, and never asks the
    disk; folder mode asks nothing for an empty path, otherwise checks the
    path once and, when it exists and the cache has no entry for it, lists
    it once and reads each listed file once, in order; with an entry for
    the path it neither lists the folder nor reads a file.  Nothing is read
    after the loader, whatever the pass shows or raises. *)
Theorem pass_io c w :
  io_calls (out (snd (run_pass_cached c w))) = expected_io_cached c w.
Proof.
  unfold expected_io_cached.
  destruct (upload_chosen w) eqn:Hu.
  - rewrite run_pass_cached_miss by (left; exact Hu).
    rewrite cold_pass_io. unfold expected_io. rewrite Hu. reflexivity.
  - destruct (c (folder_text w)) as [call|] eqn:Hc.
    + destruct (String.eqb (folder_text w) "") eqn:Hp.
      * apply String.eqb_eq in Hp.
        rewrite run_pass_cached_modes, Hu.
        unfold bind, folder_mode_cached, st_text_input, st_info, bind, emit,
          ret, ask.
        cbn [heap out app]. rewrite Hp. reflexivity.
      * destruct (exists_on_disk w (folder_text w)) eqn:He.
        -- rewrite (run_pass_cached_hit c w call Hu Hp He Hc).
           destruct (cached_value call) as [df|].
           ++ match goal with
              | |- context [show_data 0 w ?s1] =>
                  destruct (show_data_quiet w s1 0 df eq_refl)
                    as (page & Hq & Hio); rewrite Hq
              end.
              cbn [out]. rewrite !io_calls_app, io_calls_warnings, Hio.
              reflexivity.
           ++ cbn [snd out]. rewrite !io_calls_app, io_calls_warnings.
              reflexivity.
        -- rewrite run_pass_cached_modes, Hu.
           unfold bind, folder_mode_cached, st_text_input, os_path_exists,
             st_error, bind, emit, ret, ask.
           cbn [heap out app]. rewrite Hp. cbn [negb heap out app].
           rewrite He. reflexivity.
    + rewrite run_pass_cached_miss by (right; exact Hc).
      rewrite cold_pass_io. unfold expected_io. rewrite Hu. reflexivity.
Qed.

(** The scenario folder on a later pass: the path is checked, nothing is
    listed or read, and the page is the page of the first pass. *)
Example cached_scenario_pass :
  io_calls (out (snd (run_pass_cached scenario_cache (two_files_in_folder 0))))
  = [os_path_exists_ev "/data"]
  /\ selectboxes
       (out (snd (run_pass_cached scenario_cache (two_files_in_folder 0))))
     = selectboxes (out (snd (run_pass (two_files_in_folder 0)))).
Proof. split; vm_compute; reflexivity. Qed.

End WholePass.

(** ** Loaded data: no rows, a bad date, the success line *)

Section Loaded.

Lemma concat_no_rows {D} (dfs : list (list (record D))) :
  List.concat dfs = [] -> concat dfs = [].
Proof. unfold concat. intros ->. reflexivity. Qed.

(** One cell that the timestamp parser rejects makes [pd.to_datetime]
    raise. *)
Lemma to_datetime_rejects p (df : frame (option string)) i r text :
  In (i, r) df -> datetime r = Some text -> p text = None ->
  to_datetime p df = None.
Proof.
  intros Hin Hd Hp. induction df as [|[j r'] df IH]; [destruct Hin|].
  simpl. destruct Hin as [E|Hin].
  - injection E as -> ->. unfold coerce_cell. rewrite Hd, Hp. reflexivity.
  - rewrite (IH Hin). destruct (coerce_cell p (datetime r')); reflexivity.
Qed.

Lemma in_concat_rows {D} (dfs : list (list (record D))) r :
  In r (List.concat dfs) -> exists i, In (i, r) (concat dfs).
Proof.
  intros H. destruct (concat_rows dfs) as [_ Hr].
  rewrite <- Hr in H. unfold rows in H. apply in_map_iff in H.
  destruct H as ([i r'] & E & Hin). simpl in E. subst r'. eauto.
Qed.

Lemma filter_notna_length {A} (l : list (option A)) :
  length (filter notna l) = length (present l).
Proof.
  induction l as [|[x|] l IH]; simpl; [reflexivity| |exact IH].
  rewrite IH. reflexivity.
Qed.

(** [nunique] counts the names of the list [sorted] returns. *)
Lemma nunique_counts_names (col symbols : list (option string)) :
  sorted (unique col) = inr symbols ->
  nunique col = length (present symbols).
Proof.
  unfold nunique, sorted. rewrite filter_notna_length.
  destruct (forallb notna (unique col)).
  - intros [= <-]. rewrite present_map_Some.
    symmetry. apply Permutation_length, sort_str_perm.
  - destruct (existsb notna (unique col)); [discriminate|].
    intros [= <-]. reflexivity.
Qed.

(** X4. When files parse but hold no row at all, the pass shows the error
    "No data found in the loaded files" after the reads and stops: no
    success line, no select box, no Filtered View. *)
Theorem no_rows_no_selection w src t ts :
  source_of w = Some src ->
  parsed (inputs w src) = t :: ts ->
  List.concat (t :: ts) = [] ->
  run_pass w
  = (inr tt,
     mkState [Table []] (prelude src ++ reading w src ++ [the_no_data_error])).
Proof.
  intros S P E. rewrite (run_pass_loads w src S), load_result, P.
  rewrite (concat_no_rows _ E). cbn [to_datetime heap out length app].
  rewrite (show_data_no_rows w (mkState [Table []] (prelude src ++ reading w src))
                             0 eq_refl).
  cbn [heap out].
  rewrite <- app_assoc. reflexivity.
Qed.

(** X5. One datetime cell that [pd.to_datetime] cannot read, in any file
    that parsed, ends the pass with [ValueError] right after the reads:
    nothing is shown of the data, and the concatenated table is left with
    its datetime column as text. *)
Theorem bad_datetime_ends_pass w src t ts r text :
  source_of w = Some src ->
  parsed (inputs w src) = t :: ts ->
  In r (List.concat (t :: ts)) ->
  datetime r = Some text ->
  strptime w text = None ->
  run_pass w
  = (inl ValueError,
     mkState [RawTable (concat (t :: ts))] (prelude src ++ reading w src)).
Proof.
  intros S P Hin Hd Hp.
  destruct (in_concat_rows _ _ Hin) as [i Hi].
  rewrite (run_pass_loads w src S), load_result, P.
  rewrite (to_datetime_rejects _ _ i r text Hi Hd Hp). reflexivity.
Qed.

(** X6. When a non-empty Dataset is loaded and its symbols sort, the
    success line comes right after the reads and is followed by the select
    box: it reports as many records as the parsed files have rows together,
    and as many symbols as the select box offers names. *)
Theorem success_line_counts w src t ts data symbols :
  source_of w = Some src ->
  parsed (inputs w src) = t :: ts ->
  to_datetime (strptime w) (concat (t :: ts)) = Some data ->
  data <> [] ->
  sorted (unique (column symbol data)) = inr symbols ->
  exists rest,
    out (snd (run_pass w))
    = prelude src ++ reading w src
      ++ loaded_line (list_sum (map (@length _) (t :: ts)))
                     (length (present symbols))
      :: st_selectbox_ev "Select Stock Symbol:" symbols
      :: rest.
Proof.
  intros S P T Hne Hs.
  rewrite (run_pass_loads w src S), load_result, P, T.
  cbn [heap out length app].
  rewrite (show_data_run w (mkState [Table data] (prelude src ++ reading w src))
                         0 data symbols eq_refl Hne Hs).
  match goal with
  | |- context [show_selection 0 ?sel w ?s1] =>
      destruct (show_selection_quiet w s1 0 data sel eq_refl)
        as (page & Hp & _); rewrite Hp
  end.
  cbn [out]. exists page. rewrite <- !app_assoc. cbn [app].
  unfold loaded_message, loaded_line.
  rewrite (nunique_counts_names _ _ Hs), (to_datetime_length _ _ _ T),
    concat_length.
  reflexivity.
Qed.

End Loaded.

(** ** Rejected files, and what the page shows of the Filtered View *)

Section Page.

(** X7. A file that [pd.read_csv] rejects is skipped, not fatal: a Dataset
    the loader returns has one row for each row of the files that parsed,
    with the symbol and the close of that row, in the order the files were
    read, under the labels 0, 1, 2, ..., and the loader returns one
    whenever some file parsed and [pd.to_datetime] accepts the datetime
    column. *)
Theorem rejected_files_are_skipped w s src :
  (forall d s',
      load src w s = (inr (Some d), s') ->
      exists data,
        table_at (heap s') d = Some data
        /\ length data = length (List.concat (parsed (inputs w src)))
        /\ map symbol (rows data)
           = map symbol (List.concat (parsed (inputs w src)))
        /\ map close (rows data)
           = map close (List.concat (parsed (inputs w src)))
        /\ index data = seq 0 (length data))
  /\ (parsed (inputs w src) <> [] ->
      to_datetime (strptime w) (concat (parsed (inputs w src))) <> None ->
      exists d s', load src w s = (inr (Some d), s')).
Proof.
  rewrite load_result.
  destruct (parsed (inputs w src)) as [|t ts].
  - split; [intros d s' H; discriminate|congruence].
  - destruct (to_datetime (strptime w) (concat (t :: ts))) as [data|] eqn:T.
    + split; [|eauto].
      intros d s' [= <- <-]. exists data. cbn [heap].
      destruct (to_datetime_undated _ _ _ T) as [Hi Hr].
      destruct (concat_rows (t :: ts)) as [Ci Cr].
      assert (Hu : map undated (rows data)
                   = map undated (List.concat (t :: ts)))
        by (rewrite Hr, Cr; reflexivity).
      split; [apply lookup_new|]. split; [|split; [|split]].
      * rewrite <- (length_map snd data), <- (length_map undated).
        fold (rows data). rewrite Hu, length_map. reflexivity.
      * apply (f_equal (map (fun x => fst (fst x)))) in Hu.
        rewrite !map_map in Hu. exact Hu.
      * apply (f_equal (map (fun x => snd (fst x)))) in Hu.
        rewrite !map_map in Hu. exact Hu.
      * rewrite Hi, Ci, (to_datetime_length _ _ _ T). reflexivity.
    + split; [intros d s' H; discriminate|congruence].
Qed.

Lemma filtered_data_length df S :
  length (filtered_data df S)
  = length (filter (fun r => sym_eqb (symbol (snd r)) S) df).
Proof. apply Permutation_length, filtered_data_perm. Qed.

Lemma filtered_data_symbol df S r :
  In r (filtered_data df S) -> sym_eqb (symbol (snd r)) S = true.
Proof.
  intros H. eapply Permutation_in in H; [|apply filtered_data_perm].
  apply filter_In in H. apply H.
Qed.

(** X8. For every non-empty Filtered View, the "Records" metric is the
    number of Dataset rows with the selected symbol; the chart has one
    point per such row, the datetime and the close of the rows of the
    export in order; and the export, named after the symbol, holds one line
    per such row, every one of the selected symbol. *)
Theorem records_chart_and_export_agree w s data df S :
  table_at (heap s) data = Some df ->
  filtered_data df S <> [] ->
  exists page fig doc,
    out (snd (show_selection data S w s)) = out s ++ page
    /\ metrics "Records" page
       = [MInt (length (filter (fun r => sym_eqb (symbol (snd r)) S) df))]
    /\ figures page = [fig]
    /\ plot_x fig = map datetime doc
    /\ plot_y fig = map close doc
    /\ downloads page = [(doc, (str_symbol S ++ "_data.csv")%string)]
    /\ length doc = length (filter (fun r => sym_eqb (symbol (snd r)) S) df)
    /\ Forall (fun r => sym_eqb (symbol r) S = true) doc.
Proof.
  intros H Hne.
  destruct (iloc_last_some (column close (filtered_data df S))) as [c Hc].
  { unfold column. intros E. apply map_eq_nil in E. contradiction. }
  rewrite (show_selection_page w s data df S c H Hc).
  eexists _, _, (to_csv (filtered_data df S)).
  split; [reflexivity|]. split.
  { cbn. rewrite filtered_data_length. reflexivity. }
  split; [reflexivity|]. cbn [plot_x plot_y].
  unfold to_csv, rows, column. rewrite !map_map.
  split; [reflexivity|]. split; [reflexivity|]. split; [reflexivity|].
  split.
  - rewrite length_map. apply filtered_data_length.
  - apply Forall_forall. intros r Hr. apply in_map_iff in Hr.
    destruct Hr as (x & <- & Hx). eapply filtered_data_symbol, Hx.
Qed.

Lemma iloc_last_tail {D} (n : nat) (df : frame D) :
  0 < n -> iloc_last (tail n df) = iloc_last df.
Proof.
  intros Hn. destruct df as [|r0 df0] eqn:E; [reflexivity|].
  rewrite <- E. assert (Hne : df <> []) by (rewrite E; discriminate).
  destruct (exists_last Hne) as [l [a ->]].
  unfold tail, iloc_last. rewrite length_app, skipn_app. simpl length.
  replace (length l + 1 - n - length l) with 0 by lia.
  simpl skipn. rewrite !rev_unit. reflexivity.
Qed.

(** X9. For every non-empty Filtered View, the last row of the "Recent
    Data" table is the last row of the Filtered View, the row whose close
    the "Latest Close" metric shows. *)
Theorem preview_ends_on_latest w s data df S latest :
  table_at (heap s) data = Some df ->
  iloc_last (filtered_data df S) = Some latest ->
  exists page shown,
    out (snd (show_selection data S w s)) = out s ++ page
    /\ dataframes page = [shown]
    /\ iloc_last shown = Some latest
    /\ metrics "Latest Close" page
       = [MStr ("$" ++ format_2f (close (snd latest)))].
Proof.
  intros H Hl.
  rewrite (show_selection_page w s data df S _ H (close_of_last _ _ Hl)).
  eexists _, (tail 10 (filtered_data df S)).
  split; [reflexivity|]. split; [reflexivity|]. split; [|reflexivity].
  rewrite iloc_last_tail by lia. exact Hl.
Qed.

End Page.

(** ** The date range *)

Section DateRange.

(** [max()] of a timestamp column is one of its timestamps and no
    timestamp of the column is later; it is NaT only when there is none. *)
Lemma dt_max_spec (l : list (option Z)) :
  match dt_max l with
  | Some y => In (Some y) l /\ forall t, In (Some t) l -> (t <= y)%Z
  | None => forall t, ~ In (Some t) l
  end.
Proof.
  unfold dt_max, dt_reduce.
  induction l as [|[x|] l IH]; simpl.
  - intros t [].
  - destruct (fold_right _ None l) as [y|].
    + destruct IH as [Hin Hub]. split.
      * destruct (Z.max_spec x y) as [[_ ->]|[_ ->]]; auto.
      * intros t [[= <-]|Ht]; [lia|]. specialize (Hub t Ht). lia.
    + split; [auto|]. intros t [[= <-]|Ht]; [lia|]. destruct (IH t Ht).
  - destruct (fold_right _ None l) as [y|].
    + destruct IH as [Hin Hub]. split; [auto|].
      intros t [E|Ht]; [discriminate|auto].
    + intros t [E|Ht]; [discriminate|]. exact (IH t Ht).
Qed.

Lemma dt_min_spec (l : list (option Z)) :
  match dt_min l with
  | Some y => In (Some y) l /\ forall t, In (Some t) l -> (y <= t)%Z
  | None => forall t, ~ In (Some t) l
  end.
Proof.
  unfold dt_min, dt_reduce.
  induction l as [|[x|] l IH]; simpl.
  - intros t [].
  - destruct (fold_right _ None l) as [y|].
    + destruct IH as [Hin Hlb]. split.
      * destruct (Z.min_spec x y) as [[_ ->]|[_ ->]]; auto.
      * intros t [[= <-]|Ht]; [lia|]. specialize (Hlb t Ht). lia.
    + split; [auto|]. intros t [[= <-]|Ht]; [lia|]. destruct (IH t Ht).
  - destruct (fold_right _ None l) as [y|].
    + destruct IH as [Hin Hlb]. split; [auto|].
      intros t [E|Ht]; [discriminate|auto].
    + intros t [E|Ht]; [discriminate|]. exact (IH t Ht).
Qed.

(** A column bounded by two of its timestamps has them as [min()] and
    [max()]. *)
Lemma dt_bounds (l : list (option Z)) lo hi :
  In (Some lo) l -> In (Some hi) l ->
  (forall t, In (Some t) l -> (lo <= t <= hi)%Z) ->
  dt_min l = Some lo /\ dt_max l = Some hi.
Proof.
  intros Hlo Hhi Hb. split.
  - pose proof (dt_min_spec l) as M. destruct (dt_min l) as [y|].
    + destruct M as [Hy Hlb]. f_equal.
      specialize (Hlb lo Hlo). specialize (Hb y Hy). lia.
    + destruct (M lo Hlo).
  - pose proof (dt_max_spec l) as M. destruct (dt_max l) as [y|].
    + destruct M as [Hy Hub]. f_equal.
      specialize (Hub hi Hhi). specialize (Hb y Hy). lia.
    + destruct (M hi Hhi).
Qed.

Lemma iloc_last_In {A} (l : list A) x : iloc_last l = Some x -> In x l.
Proof.
  unfold iloc_last. destruct (rev l) as [|y l'] eqn:E; [discriminate|].
  intros [= <-]. apply in_rev. rewrite E. left. reflexivity.
Qed.

Lemma date_range_of_page sel fd c :
  metrics "Date Range" (symbol_page sel fd c)
  = [MStr (date_str (dt_min (column datetime fd)) ++ " to "
           ++ date_str (dt_max (column datetime fd)))].
Proof. reflexivity. Qed.

(** X10. For a Filtered View all of whose rows have a timestamp (its last
    row has one), the "Date Range" metric runs from the date of the first
    row of the view to the date of its last row, and the timestamp of
    every row of the view lies between the two. *)
Theorem date_range_is_first_to_last w s data df S first latest hi :
  table_at (heap s) data = Some df ->
  hd_error (filtered_data df S) = Some first ->
  iloc_last (filtered_data df S) = Some latest ->
  datetime (snd latest) = Some hi ->
  exists page lo,
    out (snd (show_selection data S w s)) = out s ++ page
    /\ datetime (snd first) = Some lo
    /\ metrics "Date Range" page
       = [MStr (date_str (Some lo) ++ " to " ++ date_str (Some hi))]
    /\ Forall (fun r => exists t, datetime (snd r) = Some t
                                  /\ (lo <= t <= hi)%Z)
              (filtered_data df S).
Proof.
  intros H Hf Hl Hhi.
  pose proof (filtered_data_sorted df S) as Hs.
  assert (Hlate : Forall (fun r => by_datetime r latest) (filtered_data df S)).
  { rewrite <- (iloc_last_is_last _ _ latest Hl).
    apply sorted_last_is_latest, Hs. }
  assert (Hdated : Forall (fun r => exists t, datetime (snd r) = Some t
                                              /\ (t <= hi)%Z)
                          (filtered_data df S)).
  { eapply Forall_impl; [|exact Hlate].
    intros r Hr. exact (not_later_than_timestamp r latest hi Hr Hhi). }
  assert (Hlast : In latest (filtered_data df S))
    by (apply iloc_last_In, Hl).
  destruct (filtered_data df S) as [|r fv] eqn:E; [discriminate Hf|].
  injection Hf as ->.
  rewrite Forall_forall in Hdated.
  destruct (Hdated first (or_introl eq_refl)) as (lo & Hlo & _).
  assert (Hb : Forall (fun r => exists t, datetime (snd r) = Some t
                                          /\ (lo <= t <= hi)%Z)
                      (first :: fv)).
  { apply Forall_forall. intros r Hr.
    destruct (Hdated r Hr) as (t & Ht & Hle). exists t. split; [exact Ht|].
    split; [|exact Hle].
    destruct Hr as [<-|Hr].
    - assert (t = lo) by congruence. lia.
    - inversion Hs as [|? ? _ Hall]; subst.
      rewrite Forall_forall in Hall.
      exact (by_datetime_timestamps first r lo t (Hall r Hr) Hlo Ht). }
  assert (Hcol : dt_min (column datetime (first :: fv)) = Some lo
                 /\ dt_max (column datetime (first :: fv)) = Some hi).
  { apply dt_bounds.
    - unfold column. apply in_map_iff. exists first. split; [exact Hlo|].
      left. reflexivity.
    - unfold column. apply in_map_iff. exists latest. split; assumption.
    - intros t Ht. unfold column in Ht. apply in_map_iff in Ht.
      destruct Ht as (r & Hr & Hin).
      rewrite Forall_forall in Hb. destruct (Hb r Hin) as (t' & Ht' & Hle).
      assert (t = t') by congruence. subst t'. exact Hle. }
  destruct Hcol as [Hmin Hmax].
  assert (Hc : iloc_last (column close (first :: fv))
               = Some (close (snd latest))).
  { apply close_of_last. exact Hl. }
  rewrite <- E in Hc. rewrite (show_selection_page w s data df S _ H Hc).
  rewrite E. eexists _, lo. split; [reflexivity|]. split; [exact Hlo|].
  split; [|exact Hb].
  rewrite date_range_of_page, Hmin, Hmax. reflexivity.
Qed.

End DateRange.

(** ** The options of the select box and the rows behind them *)

Section Options.

Lemma str_le_trans a : forall b c, str_le a b -> str_le b c -> str_le a c.
Proof.
  unfold str_le, String.leb.
  induction a as [|x a IH]; intros [|y b] [|z c]; simpl; try congruence.
  unfold Ascii.compare.
  destruct (N.compare_spec (N_of_ascii x) (N_of_ascii y)) as [E1|L1|G1];
    destruct (N.compare_spec (N_of_ascii y) (N_of_ascii z)) as [E2|L2|G2];
    destruct (N.compare_spec (N_of_ascii x) (N_of_ascii z)) as [E3|L3|G3];
    intros H1 H2; try reflexivity; try congruence; try (exfalso; lia).
  apply (IH b c); assumption.
Qed.

Lemma sorted_head_least (names : list string) first rest :
  Sorted str_le names -> names = first :: rest ->
  forall x, In x names -> str_le first x.
Proof.
  intros Hs -> x Hx.
  apply Sorted_StronglySorted in Hs; [|intros a b c; apply str_le_trans].
  inversion Hs as [|? ? _ Hall]; subst.
  destruct Hx as [<-|Hx].
  - unfold str_le, String.leb.
    destruct (String.leb_total first first) as [T|T]; exact T.
  - rewrite Forall_forall in Hall. apply Hall, Hx.
Qed.

Lemma figures_of_page sel fd c :
  figures (symbol_page sel fd c)
  = [mkFigure (12, 6) (column datetime fd) (column close fd) 2
              (str_symbol sel ++ " - Close Price Over Time")
              "Date" "Price ($)" 45].
Proof. reflexivity. Qed.

(** X11. On a Dataset whose symbol column is text without missing cells,
    a pass whose select box is at its first option (as on a fresh page)
    shows the symbol that is least in the order of strings: it is a symbol
    of the Dataset, no symbol of the Dataset is before it, and the chart is
    titled with it. *)
Theorem first_option_is_least w s data df :
  table_at (heap s) data = Some df ->
  df <> [] ->
  forallb notna (column symbol df) = true ->
  selectbox_index w = 0 ->
  exists first page fig,
    In (Some first) (column symbol df)
    /\ (forall x, In (Some x) (column symbol df) -> str_le first x)
    /\ out (snd (show_data data w s)) = out s ++ page
    /\ figures page = [fig]
    /\ title fig = (first ++ " - Close Price Over Time")%string.
Proof.
  intros H Hne Hall Hidx.
  destruct (symbols_sorted_distinct df Hall) as (names & Hs & Hsorted & _ & Hin).
  destruct names as [|first rest].
  { exfalso. destruct df as [|r df']; [congruence|].
    unfold column in *. simpl in Hall, Hin.
    destruct (symbol (snd r)) as [x|] eqn:E; [|discriminate Hall].
    apply (proj2 (Hin x)). left. reflexivity. }
  assert (Hfirst : In (Some first) (column symbol df))
    by (apply Hin; left; reflexivity).
  exists first.
  rewrite (show_data_run w s data df _ H Hne Hs), Hidx.
  cbn [map nth].
  destruct (iloc_last_some (column close (filtered_data df (Some first))))
    as [c Hc].
  { unfold column. intros E. apply map_eq_nil in E.
    exact (filtered_data_not_empty df first Hfirst E). }
  match goal with
  | |- context [show_selection data (Some first) w ?s1] =>
      rewrite (show_selection_page w s1 data df (Some first) c H Hc)
  end.
  cbn [out snd heap]. rewrite <- app_assoc.
  eexists _, _. split; [exact Hfirst|]. split.
  { intros x Hx. apply (sorted_head_least _ first rest Hsorted eq_refl).
    apply Hin, Hx. }
  split; [reflexivity|]. split.
  - cbn [app figures flat_map].
    fold (figures (symbol_page (Some first) (filtered_data df (Some first)) c)).
    apply figures_of_page.
  - reflexivity.
Qed.

Lemma NoDup_map_filter {A B} (g : A -> B) (f : A -> bool) (l : list A) :
  NoDup (map g l) -> NoDup (map g (filter f l)).
Proof.
  induction l as [|x l IH]; simpl; intros Hd; [constructor|].
  inversion Hd as [|? ? Hn Hd']; subst.
  destruct (f x); simpl; [|auto].
  constructor; [|auto].
  intros Hin. apply Hn. apply in_map_iff in Hin.
  destruct Hin as (y & E & Hy). apply filter_In in Hy.
  apply in_map_iff. exists y. tauto.
Qed.

Lemma labelled_lookup {D} (df : frame D) : forall a,
  index df = seq a (length df) ->
  forall i r, In (i, r) df -> a <= i /\ nth_error df (i - a) = Some (i, r).
Proof.
  unfold index.
  induction df as [|[j r'] df IH]; intros a Hi i r Hin; [destruct Hin|].
  simpl in Hi. injection Hi as Hj Hi. subst j.
  destruct Hin as [E|Hin].
  - injection E as <- <-. rewrite Nat.sub_diag. split; [lia|reflexivity].
  - destruct (IH (S a) Hi i r Hin) as [Hle Hn]. split; [lia|].
    replace (i - a) with (S (i - S a)) by lia. exact Hn.
Qed.

(** X12. The labels of a Filtered View are the positions of its rows in
    the Dataset the loader built: a row shown under label i is row i of the
    Dataset, and no two rows of a view share a label. *)
Theorem view_labels_are_positions w s src d s' :
  load src w s = (inr (Some d), s') ->
  exists data,
    table_at (heap s') d = Some data
    /\ forall S,
         NoDup (index (filtered_data data S))
         /\ forall i r, In (i, r) (filtered_data data S) ->
                        nth_error data i = Some (i, r).
Proof.
  rewrite load_result.
  destruct (parsed (inputs w src)) as [|t ts]; [discriminate|].
  destruct (to_datetime (strptime w) (concat (t :: ts))) as [data|] eqn:T;
    [|discriminate].
  intros [= <- <-]. exists data. cbn [heap]. split; [apply lookup_new|].
  assert (Hidx : index data = seq 0 (length data)).
  { destruct (to_datetime_undated _ _ _ T) as [Hi _].
    destruct (concat_rows (t :: ts)) as [Ci _].
    rewrite Hi, Ci, (to_datetime_length _ _ _ T). reflexivity. }
  intros S. split.
  - unfold index.
    eapply Permutation_NoDup;
      [symmetry; apply Permutation_map, filtered_data_perm|].
    apply NoDup_map_filter. fold (index data). rewrite Hidx. apply seq_NoDup.
  - intros i r Hin.
    eapply Permutation_in in Hin; [|apply filtered_data_perm].
    apply filter_In in Hin. destruct Hin as [Hin _].
    destruct (labelled_lookup data 0 Hidx i r Hin) as [_ Hn].
    rewrite Nat.sub_0_r in Hn. exact Hn.
Qed.

Lemma none_match (symbols : list (option string)) y :
  ~ In (Some y) symbols ->
  list_sum (map (fun S => if sym_eqb (Some y) S then 1 else 0) symbols) = 0.
Proof.
  induction symbols as [|S symbols IH]; intros Hn; [reflexivity|].
  cbn [map list_sum fold_right]. fold (list_sum (map (fun S => if sym_eqb (Some y) S then 1 else 0) symbols)).
  rewrite IH by (intros Hx; apply Hn; right; exact Hx).
  destruct S as [x|]; [|reflexivity]. cbn [sym_eqb].
  destruct (String.eqb_spec y x) as [->|_]; [|reflexivity].
  exfalso. apply Hn. left. reflexivity.
Qed.

Lemma one_match (symbols : list (option string)) y :
  NoDup symbols -> In (Some y) symbols ->
  list_sum (map (fun S => if sym_eqb (Some y) S then 1 else 0) symbols) = 1.
Proof.
  induction 1 as [|S symbols Hn Hd IH]; intros Hin; [destruct Hin|].
  cbn [map list_sum fold_right]. fold (list_sum (map (fun S => if sym_eqb (Some y) S then 1 else 0) symbols)).
  destruct Hin as [->|Hin].
  - rewrite (none_match symbols y Hn). cbn [sym_eqb].
    rewrite String.eqb_refl. reflexivity.
  - rewrite (IH Hin). destruct S as [x|]; [|reflexivity]. cbn [sym_eqb].
    destruct (String.eqb_spec y x) as [->|_]; [contradiction|reflexivity].
Qed.

Lemma no_match (symbols : list (option string)) :
  list_sum (map (fun S => if sym_eqb None S then 1 else 0) symbols) = 0.
Proof. induction symbols as [|S symbols IH]; simpl; [reflexivity|exact IH]. Qed.

Lemma list_sum_map_add {A} (f g : A -> nat) (l : list A) :
  list_sum (map (fun x => f x + g x) l)
  = list_sum (map f l) + list_sum (map g l).
Proof. induction l as [|x l IH]; simpl; [reflexivity|]. rewrite IH. lia. Qed.

Lemma counts_add_up (symbols col : list (option string)) :
  NoDup symbols ->
  (forall y, In (Some y) col -> In (Some y) symbols) ->
  list_sum (map (fun S => length (filter (fun c => sym_eqb c S) col)) symbols)
  = length (present col).
Proof.
  intros Hd. induction col as [|c col IH]; intros Hin.
  - simpl. clear. induction symbols; simpl; auto.
  - rewrite (map_ext _ (fun S => (if sym_eqb c S then 1 else 0)
                                 + length (filter (fun c => sym_eqb c S) col))).
    2:{ intros S. simpl. destruct (sym_eqb c S); reflexivity. }
    rewrite list_sum_map_add, IH by (intros y Hy; apply Hin; right; exact Hy).
    destruct c as [y|]; cbn [present length].
    + rewrite (one_match symbols y Hd) by (apply Hin; left; reflexivity).
      reflexivity.
    + rewrite no_match. reflexivity.
Qed.

Lemma filter_column_length (df : DataFrame) S :
  length (filter (fun r => sym_eqb (symbol (snd r)) S) df)
  = length (filter (fun c => sym_eqb c S) (column symbol df)).
Proof.
  unfold column. induction df as [|r df IH]; simpl; [reflexivity|].
  destruct (sym_eqb (symbol (snd r)) S); simpl; rewrite IH; reflexivity.
Qed.

(** X13. The Filtered Views of the options of the select box share out the
    rows that have a symbol: their record counts add up to the number of
    Dataset rows whose symbol cell is not missing, so a row with a name is
    shown under exactly one option. *)
Theorem records_add_up (df : DataFrame) symbols :
  sorted (unique (column symbol df)) = inr symbols ->
  list_sum (map (fun S => length (filtered_data df S)) symbols)
  = length (present (column symbol df)).
Proof.
  intros Hs.
  destruct (sorted_spec _ _ Hs (unique_NoDup _)) as (Hd & Hi & _).
  rewrite (map_ext _ (fun S => length (filter (fun c => sym_eqb c S)
                                              (column symbol df)))).
  - apply counts_add_up; [exact Hd|].
    intros y Hy. apply Hi, unique_In, Hy.
  - intros S. rewrite filtered_data_length. apply filter_column_length.
Qed.

End Options.

(** ** The Dataset through a pass, undated rows, the two loaders *)

Section Through.

(** X14. Once the loader has built the Dataset (coercing its datetime
    column in place), the rest of the pass leaves it alone: at the end of
    the pass, however it ends, the first object of the store is the
    Dataset as loaded. *)
Theorem dataset_survives_pass w src t ts data :
  source_of w = Some src ->
  parsed (inputs w src) = t :: ts ->
  to_datetime (strptime w) (concat (t :: ts)) = Some data ->
  table_at (heap (snd (run_pass w))) 0 = Some data.
Proof.
  intros S P T. rewrite (run_pass_loads w src S), load_result, P, T.
  cbn [heap out length app].
  eapply extends_lookup; [apply grows_show_data|]. reflexivity.
Qed.

Lemma by_datetime_after_undated (a b : nat * Record_) :
  by_datetime a b -> datetime (snd a) = None -> datetime (snd b) = None.
Proof.
  unfold by_datetime, dt_le. intros H Ha. rewrite Ha in H.
  destruct (datetime (snd b)); [discriminate H|reflexivity].
Qed.

Lemma undated_stays_undated (fv : DataFrame) :
  StronglySorted by_datetime fv ->
  forall r latest : nat * Record_,
    In r fv -> datetime (snd r) = None -> iloc_last fv = Some latest ->
    datetime (snd latest) = None.
Proof.
  intros Hs r latest Hin Hr Hl.
  assert (Hall : Forall (fun r => by_datetime r latest) fv).
  { rewrite <- (iloc_last_is_last _ _ latest Hl).
    apply sorted_last_is_latest, Hs. }
  rewrite Forall_forall in Hall.
  exact (by_datetime_after_undated r latest (Hall r Hin) Hr).
Qed.

(** X15. A row whose datetime cell is missing is kept and sorts last: if
    the Filtered View has such a row, its last row is one, and the "Latest
    Close" metric shows the close of a row without a date. *)
Theorem undated_row_is_latest w s data df S r latest :
  table_at (heap s) data = Some df ->
  In r (filtered_data df S) ->
  datetime (snd r) = None ->
  iloc_last (filtered_data df S) = Some latest ->
  datetime (snd latest) = None
  /\ exists page,
       out (snd (show_selection data S w s)) = out s ++ page
       /\ metrics "Latest Close" page
          = [MStr ("$" ++ format_2f (close (snd latest)))].
Proof.
  intros H Hin Hr Hl. split.
  - exact (undated_stays_undated _ (filtered_data_sorted df S) r latest
                                 Hin Hr Hl).
  - rewrite (show_selection_page w s data df S _ H (close_of_last _ _ Hl)).
    eexists. split; reflexivity.
Qed.

(** X16. The two loaders build the same Dataset from the same files: when
    [pd.read_csv] makes of the uploaded files what it makes of the files of
    the folder, in the same order, [load_uploaded_data] and
    [load_data_from_folder] return the same result and leave the same
    store. *)
Theorem loaders_agree w s files folder_path :
  map content files
  = map (csv_on_disk w) (glob_on_disk w (os_path_join folder_path "*.csv")) ->
  fst (load_uploaded_data files w s) = fst (load_data_from_folder folder_path w s)
  /\ heap (snd (load_uploaded_data files w s))
     = heap (snd (load_data_from_folder folder_path w s)).
Proof.
  intros E.
  change (load_uploaded_data files) with (load (Upload files)).
  change (load_data_from_folder folder_path) with (load (Folder folder_path)).
  rewrite !load_result. cbn [inputs]. rewrite <- E.
  destruct (parsed (map content files)) as [|t ts]; [split; reflexivity|].
  destruct (to_datetime (strptime w) (concat (t :: ts)));
    split; reflexivity.
Qed.

End Through.

(** ** The further properties at concrete worlds *)

Section MoreWitnesses.

Lemma nothing_uploaded_is_prompted_witness :
  upload_chosen nothing_uploaded_world = true
  /\ uploaded nothing_uploaded_world = []
  /\ io_calls (out (snd (run_pass nothing_uploaded_world))) = [].
Proof.
  split; [reflexivity|]. split; [reflexivity|].
  apply (nothing_uploaded_is_prompted nothing_uploaded_world); reflexivity.
Defined.

Lemma no_rows_no_selection_witness :
  source_of no_rows_world = Some (Upload (uploaded no_rows_world))
  /\ parsed (inputs no_rows_world (Upload (uploaded no_rows_world))) = [[]]
  /\ List.concat [@nil raw_record] = []
  /\ run_pass no_rows_world
     = (inr tt,
        mkState [Table []]
                (prelude (Upload (uploaded no_rows_world))
                 ++ reading no_rows_world (Upload (uploaded no_rows_world))
                 ++ [the_no_data_error])).
Proof.
  split; [reflexivity|]. split; [reflexivity|]. split; [reflexivity|].
  apply (no_rows_no_selection no_rows_world (Upload (uploaded no_rows_world))
           [] []); reflexivity.
Defined.

Lemma bad_datetime_ends_pass_witness :
  source_of bad_date_world = Some (Upload (uploaded bad_date_world))
  /\ parsed (inputs bad_date_world (Upload (uploaded bad_date_world)))
     = [[bad_date_row]]
  /\ In bad_date_row (List.concat [[bad_date_row]])
  /\ datetime bad_date_row = Some "yesterday"
  /\ strptime bad_date_world "yesterday" = None
  /\ run_pass bad_date_world
     = (inl ValueError,
        mkState [RawTable (concat [[bad_date_row]])]
                (prelude (Upload (uploaded bad_date_world))
                 ++ reading bad_date_world (Upload (uploaded bad_date_world)))).
Proof.
  split; [reflexivity|]. split; [reflexivity|].
  split; [left; reflexivity|]. split; [reflexivity|]. split; [reflexivity|].
  apply (bad_datetime_ends_pass bad_date_world
           (Upload (uploaded bad_date_world)) [bad_date_row] [] bad_date_row
           "yesterday");
    [reflexivity | reflexivity | left; reflexivity | reflexivity | reflexivity].
Defined.

Lemma success_line_counts_witness :
  source_of (two_files_uploaded 0)
  = Some (Upload (uploaded (two_files_uploaded 0)))
  /\ parsed (inputs (two_files_uploaded 0)
                    (Upload (uploaded (two_files_uploaded 0))))
     = [A_csv; B_csv]
  /\ to_datetime (strptime (two_files_uploaded 0)) (concat [A_csv; B_csv])
     = Some scenario_data
  /\ scenario_data <> []
  /\ sorted (unique (column symbol scenario_data))
     = inr [Some "AAPL"; Some "MSFT"]
  /\ exists rest,
       out (snd (run_pass (two_files_uploaded 0)))
       = prelude (Upload (uploaded (two_files_uploaded 0)))
         ++ reading (two_files_uploaded 0)
                    (Upload (uploaded (two_files_uploaded 0)))
         ++ loaded_line (list_sum (map (@length _) [A_csv; B_csv]))
                        (length (present [Some "AAPL"; Some "MSFT"]))
         :: st_selectbox_ev "Select Stock Symbol:" [Some "AAPL"; Some "MSFT"]
         :: rest.
Proof.
  split; [reflexivity|]. split; [reflexivity|]. split; [reflexivity|].
  split; [discriminate|]. split; [reflexivity|].
  apply (success_line_counts (two_files_uploaded 0)
           (Upload (uploaded (two_files_uploaded 0))) A_csv [B_csv]
           scenario_data [Some "AAPL"; Some "MSFT"]);
    [reflexivity | reflexivity | reflexivity | discriminate | reflexivity].
Defined.

Lemma rejected_files_are_skipped_witness :
  parsed (inputs one_bad_file_world (Folder "/data")) <> []
  /\ to_datetime (strptime one_bad_file_world)
                 (concat (parsed (inputs one_bad_file_world (Folder "/data"))))
     <> None
  /\ exists d s', load (Folder "/data") one_bad_file_world initial
                  = (inr (Some d), s').
Proof.
  split; [vm_compute; discriminate|]. split; [vm_compute; discriminate|].
  apply (proj2 (rejected_files_are_skipped one_bad_file_world initial
                  (Folder "/data")));
    vm_compute; discriminate.
Defined.

Lemma records_chart_and_export_agree_witness :
  table_at (heap scenario_state) 0 = Some scenario_data
  /\ filtered_data scenario_data (Some "AAPL") <> []
  /\ exists page fig doc,
       out (snd (show_selection 0 (Some "AAPL") (two_files_uploaded 0)
                                scenario_state))
       = out scenario_state ++ page
       /\ metrics "Records" page
          = [MInt (length (filter (fun r => sym_eqb (symbol (snd r))
                                                    (Some "AAPL"))
                                  scenario_data))]
       /\ figures page = [fig]
       /\ plot_x fig = map datetime doc
       /\ plot_y fig = map close doc
       /\ downloads page = [(doc, (str_symbol (Some "AAPL") ++ "_data.csv")%string)]
       /\ length doc
          = length (filter (fun r => sym_eqb (symbol (snd r)) (Some "AAPL"))
                           scenario_data)
       /\ Forall (fun r => sym_eqb (symbol r) (Some "AAPL") = true) doc.
Proof.
  split; [reflexivity|]. split; [vm_compute; discriminate|].
  apply (records_chart_and_export_agree (two_files_uploaded 0) scenario_state
           0 scenario_data (Some "AAPL"));
    [reflexivity | vm_compute; discriminate].
Defined.

Lemma preview_ends_on_latest_witness :
  table_at (heap scenario_state) 0 = Some scenario_data
  /\ iloc_last (filtered_data scenario_data (Some "AAPL")) = Some latest_aapl
  /\ exists page shown,
       out (snd (show_selection 0 (Some "AAPL") (two_files_uploaded 0)
                                scenario_state))
       = out scenario_state ++ page
       /\ dataframes page = [shown]
       /\ iloc_last shown = Some latest_aapl
       /\ metrics "Latest Close" page
          = [MStr ("$" ++ format_2f (close (snd latest_aapl)))].
Proof.
  split; [reflexivity|]. split; [reflexivity|].
  apply (preview_ends_on_latest (two_files_uploaded 0) scenario_state 0
           scenario_data (Some "AAPL") latest_aapl); reflexivity.
Defined.

Lemma date_range_is_first_to_last_witness :
  table_at (heap scenario_state) 0 = Some scenario_data
  /\ hd_error (filtered_data scenario_data (Some "AAPL")) = Some first_aapl
  /\ iloc_last (filtered_data scenario_data (Some "AAPL")) = Some latest_aapl
  /\ datetime (snd latest_aapl) = Some 1704240000000000000%Z
  /\ exists page lo,
       out (snd (show_selection 0 (Some "AAPL") (two_files_uploaded 0)
                                scenario_state))
       = out scenario_state ++ page
       /\ datetime (snd first_aapl) = Some lo
       /\ metrics "Date Range" page
          = [MStr (date_str (Some lo) ++ " to "
                   ++ date_str (Some 1704240000000000000%Z))]
       /\ Forall (fun r => exists t, datetime (snd r) = Some t
                                     /\ (lo <= t <= 1704240000000000000)%Z)
                 (filtered_data scenario_data (Some "AAPL")).
Proof.
  split; [reflexivity|]. split; [reflexivity|]. split; [reflexivity|].
  split; [reflexivity|].
  apply (date_range_is_first_to_last (two_files_uploaded 0) scenario_state 0
           scenario_data (Some "AAPL") first_aapl latest_aapl
           1704240000000000000%Z); reflexivity.
Defined.

Lemma first_option_is_least_witness :
  table_at (heap scenario_state) 0 = Some scenario_data
  /\ scenario_data <> []
  /\ forallb notna (column symbol scenario_data) = true
  /\ selectbox_index (two_files_uploaded 0) = 0
  /\ exists first page fig,
       In (Some first) (column symbol scenario_data)
       /\ (forall x, In (Some x) (column symbol scenario_data) ->
                     str_le first x)
       /\ out (snd (show_data 0 (two_files_uploaded 0) scenario_state))
          = out scenario_state ++ page
       /\ figures page = [fig]
       /\ title fig = (first ++ " - Close Price Over Time")%string.
Proof.
  split; [reflexivity|]. split; [discriminate|]. split; [reflexivity|].
  split; [reflexivity|].
  apply (first_option_is_least (two_files_uploaded 0) scenario_state 0
           scenario_data);
    [reflexivity | discriminate | reflexivity | reflexivity].
Defined.

Lemma view_labels_are_positions_witness :
  load (Upload (uploaded (two_files_uploaded 0))) (two_files_uploaded 0) initial
  = (inr (Some 0), mkState [Table scenario_data]
                           [read_csv_ev "A.csv"; read_csv_ev "B.csv"])
  /\ exists data,
       table_at [Table scenario_data] 0 = Some data
       /\ forall S,
            NoDup (index (filtered_data data S))
            /\ forall i r, In (i, r) (filtered_data data S) ->
                           nth_error data i = Some (i, r).
Proof.
  split; [reflexivity|].
  apply (view_labels_are_positions (two_files_uploaded 0) initial
           (Upload (uploaded (two_files_uploaded 0))) 0
           (mkState [Table scenario_data]
                    [read_csv_ev "A.csv"; read_csv_ev "B.csv"])).
  reflexivity.
Defined.

Lemma records_add_up_witness :
  sorted (unique (column symbol scenario_data))
  = inr [Some "AAPL"; Some "MSFT"]
  /\ list_sum (map (fun S => length (filtered_data scenario_data S))
                   [Some "AAPL"; Some "MSFT"])
     = length (present (column symbol scenario_data)).
Proof.
  split; [reflexivity|].
  apply (records_add_up scenario_data [Some "AAPL"; Some "MSFT"]).
  reflexivity.
Defined.

Lemma dataset_survives_pass_witness :
  source_of (two_files_uploaded 0)
  = Some (Upload (uploaded (two_files_uploaded 0)))
  /\ parsed (inputs (two_files_uploaded 0)
                    (Upload (uploaded (two_files_uploaded 0))))
     = [A_csv; B_csv]
  /\ to_datetime (strptime (two_files_uploaded 0)) (concat [A_csv; B_csv])
     = Some scenario_data
  /\ table_at (heap (snd (run_pass (two_files_uploaded 0)))) 0
     = Some scenario_data.
Proof.
  split; [reflexivity|]. split; [reflexivity|]. split; [reflexivity|].
  apply (dataset_survives_pass (two_files_uploaded 0)
           (Upload (uploaded (two_files_uploaded 0))) A_csv [B_csv]
           scenario_data); reflexivity.
Defined.

Lemma undated_row_is_latest_witness :
  table_at [Table undated_data] 0 = Some undated_data
  /\ In (0, mkRecord (Some "AAPL") None (price 190) [])
        (filtered_data undated_data (Some "AAPL"))
  /\ iloc_last (filtered_data undated_data (Some "AAPL"))
     = Some (0, mkRecord (Some "AAPL") None (price 190) [])
  /\ exists page,
       out (snd (show_selection 0 (Some "AAPL") (two_files_uploaded 0)
                                (mkState [Table undated_data] [])))
       = [] ++ page
       /\ metrics "Latest Close" page = [MStr "$190.00"].
Proof.
  split; [reflexivity|]. split; [right; left; reflexivity|].
  split; [reflexivity|].
  apply (undated_row_is_latest (two_files_uploaded 0)
           (mkState [Table undated_data] []) 0 undated_data (Some "AAPL")
           (0, mkRecord (Some "AAPL") None (price 190) [])
           (0, mkRecord (Some "AAPL") None (price 190) []));
    [reflexivity | right; left; reflexivity | reflexivity | reflexivity].
Defined.

Lemma loaders_agree_witness :
  map content (uploaded (two_files_uploaded 0))
  = map (csv_on_disk (two_files_in_folder 0))
        (glob_on_disk (two_files_in_folder 0) (os_path_join "/data" "*.csv"))
  /\ fst (load_uploaded_data (uploaded (two_files_uploaded 0))
                             (two_files_in_folder 0) initial)
     = fst (load_data_from_folder "/data" (two_files_in_folder 0) initial).
Proof.
  split; [reflexivity|].
  apply (loaders_agree (two_files_in_folder 0) initial
           (uploaded (two_files_uploaded 0)) "/data").
  reflexivity.
Defined.

End MoreWitnesses.

(** * The export, written and read back *)


Section CsvText.





















End CsvText.

Section ReadBack.

Lemma map_fixes {A} (f : A -> A) (l : list A) :
  (forall x, In x l -> f x = x) -> map f l = l.
Proof.
  intros H. induction l as [|x l IH]; simpl; [reflexivity|].
  rewrite H by (left; reflexivity). rewrite IH; [reflexivity|].
  intros y Hy. apply H. right. exact Hy.
Qed.








Lemma forallb_false_In {A} (f : A -> bool) (l : list A) x :
  In x l -> f x = false -> forallb f l = false.
Proof.
  intros Hin Hx. destruct (forallb f l) eqn:E; [|reflexivity].
  rewrite forallb_forall in E. rewrite (E _ Hin) in Hx. discriminate.
Qed.

Lemma given_In p (col : list value) v :
  In v col -> na_values (str_value p v) = false ->
  In (str_value p v)
     (filter (fun f => negb (na_values f)) (map (str_value p) col)).
Proof.
  intros Hin Hna. apply filter_In. split; [apply in_map, Hin|].
  rewrite Hna. reflexivity.
Qed.


Lemma column_reads_back_pointwise p (col : list value) :
  (forall v, In v col ->
             read_cell p (map (str_value p) col) (str_value p v) = v) ->
  column_reads_back p col.
Proof.
  intros H. unfold column_reads_back. rewrite map_map.
  apply map_fixes. exact H.
Qed.




Lemma no_missing_fields p (col : list value) :
  (forall v, In v col -> na_values (str_value p v) = false) ->
  existsb na_values (map (str_value p) col) = false.
Proof.
  intros H. apply not_true_is_false. intros Hex.
  apply existsb_exists in Hex. destruct Hex as (f & Hf & Hna).
  apply in_map_iff in Hf. destruct Hf as (v & <- & Hv).
  rewrite (H v Hv) in Hna. discriminate.
Qed.

Lemma given_forallb p (g : string -> bool) (col : list value) :
  (forall v, In v col -> g (str_value p v) = true) ->
  forallb g (filter (fun f => negb (na_values f)) (map (str_value p) col))
  = true.
Proof.
  intros H. apply forallb_forall. intros f Hf.
  apply filter_In in Hf. destruct Hf as [Hf _].
  apply in_map_iff in Hf. destruct Hf as (v & <- & Hv). apply H, Hv.
Qed.

Lemma int_column_reads_back p (col : list value) :
  Forall (int_cell p) col -> column_reads_back p col.
Proof.
  intros H. apply column_reads_back_pointwise. intros v Hin.
  rewrite Forall_forall in H.
  destruct (H _ Hin) as (z & -> & Hna & Hz).
  unfold read_cell, infer.
  rewrite (given_forallb p (fun f => is_some (to_int64 p f)) col).
  - rewrite (no_missing_fields p col).
    + cbn [str_value]. unfold convert. rewrite Hna, Hz. reflexivity.
    + intros v Hv. destruct (H _ Hv) as (y & -> & Hy & _). exact Hy.
  - intros v Hv. destruct (H _ Hv) as (y & -> & _ & Hy).
    cbn [str_value]. rewrite Hy. reflexivity.
Qed.

Lemma bool_column_reads_back p (col : list value) :
  bools_are_words p -> Forall bool_cell col -> column_reads_back p col.
Proof.
  intros Hw H. apply column_reads_back_pointwise. intros v Hin.
  rewrite Forall_forall in H.
  destruct (H _ Hin) as (b & ->).
  assert (Hna : forall c : bool,
             na_values (if c then "True" else "False") = false)
    by (intros [|]; reflexivity).
  assert (Hb : forall c : bool,
             to_bool (if c then "True" else "False") = Some c)
    by (intros [|]; reflexivity).
  unfold read_cell, infer.
  pose proof (given_In p col (VBool b) Hin (Hna b)) as Hg.
  cbn [str_value] in Hg.
  rewrite (forallb_false_In _ _ _ Hg)
    by (rewrite (proj1 (Hw b)); reflexivity).
  rewrite (forallb_false_In _ _ _ Hg)
    by (rewrite (proj2 (Hw b)); reflexivity).
  rewrite (given_forallb p (fun f => is_some (to_bool f)) col).
  - cbn [str_value]. unfold convert. rewrite Hna, Hb. reflexivity.
  - intros v Hv. destruct (H _ Hv) as (c & ->). cbn [str_value].
    rewrite Hb. reflexivity.
Qed.

End ReadBack.

Section ExportedTable.










End ExportedTable.

Section ExportClaim.




(** What the export of that Filtered View writes. *)
Lemma annotated_export_text :
  csv_records example_format
    (table_of (to_csv (filtered_data annotated_data (Some "AAPL"))))
  = [["symbol"; "datetime"; "close"; "volume"; "note"];
     ["AAPL"; "2024-01-01"; "185.0"; "100"; "open, then up"];
     ["AAPL"; "2024-01-02"; "186.0"; "250"; ""]]
  /\ write_row ["AAPL"; "2024-01-01"; "185.0"; "100"; "open, then up"]
     = String.concat ""
         ["AAPL,2024-01-01,185.0,100,"; String dquote "open, then up";
          String dquote ""; String lf ""].
Proof. split; vm_compute; reflexivity. Qed.

End ExportClaim.
